(** * Prospect profile store: entity model, document store and index

    A shallow embedding of
    - [backend/src/data/prospect_profile.py]  (enums, dataclasses,
      [to_dict] / [from_dict], the in-memory mutators),
    - [backend/src/data/profile_storage.py]   ([ProfileStorage]: one JSON
      document per profile, the secondary index, search and listing),
    - [backend/src/data/profile_manager.py]   (the load / mutate / save
      operations of [ProfileManager]),
    followed by the properties of the store stated in the specification.

    Conventions of the embedding
    - Python [dict]s keep insertion order, so a dict is an association list
      ([dict V]); a Python [set] is a [gset]; a Python [int] is a [Z].
    - A profile document on disk is either text that [json.load] rejects
      ([Text]) or a JSON value ([Doc]); the concrete JSON syntax is not
      modelled.
    - [datetime] is the library type of Python; its [isoformat] and
      [fromisoformat] are taken as an interface ([DateTime]).
    - The readings of [datetime.now()] and [uuid.uuid4()] made during a call
      are arguments of the call.
    - A profile id names its own file, and file operations succeed: the
      [except] branches of [save_profile] and [delete_profile] are reached
      only on an I/O fault. *)

From Stdlib Require Import ZArith String Ascii List Bool.
From stdpp Require Import base option list strings gmap sorting.

Set Warnings "-register-all,-clear-no-such-hyp".
Local Open Scope string_scope.
Local Open Scope Z_scope.
Local Open Scope list_scope.

(* ===================================================================== *)
(** ** Python dictionaries: insertion-ordered association lists *)
(* ===================================================================== *)

Module Dict.

Definition dict (V : Type) : Type := list (string * V).

(** [d.get(k)] / [d[k]]: the first binding of [k]. *)
Fixpoint get {V} (k : string) (d : dict V) : option V :=
  match d with
  | [] => None
  | (k', v) :: d' => if decide (k = k') then Some v else get k d'
  end.

(** [k in d]. *)
Definition mem {V} (k : string) (d : dict V) : bool :=
  match get k d with Some _ => true | None => false end.

(** [d[k] = v]: an existing key keeps its position, a new one goes last. *)
Fixpoint set {V} (k : string) (v : V) (d : dict V) : dict V :=
  match d with
  | [] => [(k, v)]
  | (k', v') :: d' =>
      if decide (k = k') then (k, v) :: d' else (k', v') :: set k v d'
  end.

(** [del d[k]]. *)
Fixpoint del {V} (k : string) (d : dict V) : dict V :=
  match d with
  | [] => []
  | (k', v') :: d' =>
      if decide (k = k') then del k d' else (k', v') :: del k d'
  end.

(** [d.keys()] and [d.items()], in insertion order. *)
Definition keys {V} (d : dict V) : list string := map fst d.
Definition items {V} (d : dict V) : list (string * V) := d.

(** [d.get(k, dflt)]. *)
Definition get_default {V} (k : string) (dflt : V) (d : dict V) : V :=
  match get k d with Some v => v | None => dflt end.

End Dict.

Import Dict.

(* ===================================================================== *)
(** ** JSON values *)
(* ===================================================================== *)

Inductive json : Type :=
| JNull
| JBool (b : bool)
| JInt (n : Z)
| JStr (s : string)
| JList (l : list json)
| JObj (o : list (string * json)).

(** What a profile file holds: text that is not JSON, or a JSON value. *)
Inductive content : Type :=
| Text (raw : string)
| Doc (j : json).

(* ===================================================================== *)
(** ** Exceptions and the result of a call that may raise *)
(* ===================================================================== *)

Inductive exn : Type :=
| ValueError
| TypeError
| AttributeError
| JSONDecodeError.

(** [Foreign k]: the document holds under key [k] a value of a JSON type
    other than the one the dataclass annotates. Python keeps such a value in
    the object unchecked; a typed profile cannot hold it, and the embedding
    stops there. No property below is stated about this outcome. *)
Inductive result (A : Type) : Type :=
| Ok (a : A)
| Raise (e : exn)
| Foreign (key : string).

Arguments Ok {A} a.
Arguments Raise {A} e.
Arguments Foreign {A} key.

#[global] Instance result_bind : MBind result := fun A B k r =>
  match r with
  | Ok a => k a
  | Raise e => Raise e
  | Foreign key => Foreign key
  end.

(* ===================================================================== *)
(** ** The datetime interface *)
(* ===================================================================== *)

(** [fromisoformat] answers [None] where Python raises [ValueError]. *)
Class DateTime : Type := {
  datetime : Type;
  isoformat : datetime -> string;
  fromisoformat : string -> option datetime
}.

(** The documented contract of the library: [fromisoformat] inverts
    [isoformat]. *)
Class IsoRoundTrip (DT : DateTime) : Prop :=
  iso_roundtrip : forall d : datetime, fromisoformat (isoformat d) = Some d.

(** A concrete instance, used to run the model: a datetime is held as its
    ISO-8601 text. *)
Definition iso_text : DateTime :=
  {| datetime := string; isoformat := fun s => s; fromisoformat := Some |}.

(* ===================================================================== *)
(** ** Enumerations (prospect_profile.py, lines 13-38) *)
(* ===================================================================== *)

Inductive ProspectType : Type :=
| COMPANY | INDIVIDUAL | ENTREPRENEUR | INVESTOR | PARTNER | CLIENT | OTHER.

Inductive RelevanceScore : Type :=
| HIGH | MEDIUM | LOW | UNSCORED.

Inductive ProspectStatus : Type :=
| DISCOVERED | QUALIFIED | CONTACTED | ENGAGED | CONVERTED | REJECTED
| ARCHIVED.

(** [.value] of each enum member. *)
Definition ProspectType_value (t : ProspectType) : string :=
  match t with
  | COMPANY => "company"
  | INDIVIDUAL => "individual"
  | ENTREPRENEUR => "entrepreneur"
  | INVESTOR => "investor"
  | PARTNER => "partner"
  | CLIENT => "client"
  | OTHER => "other"
  end.

Definition RelevanceScore_value (r : RelevanceScore) : string :=
  match r with
  | HIGH => "High"
  | MEDIUM => "Medium"
  | LOW => "Low"
  | UNSCORED => "Unscored"
  end.

Definition ProspectStatus_value (s : ProspectStatus) : string :=
  match s with
  | DISCOVERED => "discovered"
  | QUALIFIED => "qualified"
  | CONTACTED => "contacted"
  | ENGAGED => "engaged"
  | CONVERTED => "converted"
  | REJECTED => "rejected"
  | ARCHIVED => "archived"
  end.

(** [Enum(value)]: lookup by value; any other value raises [ValueError]. *)
Definition find_by_value {E} (value : E -> string) (members : list E)
    (s : string) : option E :=
  List.find (fun m => bool_decide (value m = s)) members.

Definition ProspectType_members : list ProspectType :=
  [COMPANY; INDIVIDUAL; ENTREPRENEUR; INVESTOR; PARTNER; CLIENT; OTHER].
Definition RelevanceScore_members : list RelevanceScore :=
  [HIGH; MEDIUM; LOW; UNSCORED].
Definition ProspectStatus_members : list ProspectStatus :=
  [DISCOVERED; QUALIFIED; CONTACTED; ENGAGED; CONVERTED; REJECTED; ARCHIVED].

Definition enum_of_json {E} (value : E -> string) (members : list E)
    (j : json) : result E :=
  match j with
  | JStr s =>
      match find_by_value value members s with
      | Some m => Ok m
      | None => Raise ValueError
      end
  | _ => Raise ValueError
  end.

Definition ProspectType_of_json : json -> result ProspectType :=
  enum_of_json ProspectType_value ProspectType_members.
Definition RelevanceScore_of_json : json -> result RelevanceScore :=
  enum_of_json RelevanceScore_value RelevanceScore_members.
Definition ProspectStatus_of_json : json -> result ProspectStatus :=
  enum_of_json ProspectStatus_value ProspectStatus_members.

(* ===================================================================== *)
(** ** Reading typed values out of a JSON value *)
(* ===================================================================== *)

(** [data.get(key, dflt)] on a JSON object. *)
Definition jget (key : string) (dflt : json) (o : list (string * json))
    : json :=
  get_default key dflt o.

(** The receiver of a [.get] call: anything but an object has no [get]. *)
Definition as_obj (j : json) : result (list (string * json)) :=
  match j with
  | JObj o => Ok o
  | _ => Raise AttributeError
  end.

Definition as_str (key : string) (j : json) : result string :=
  match j with
  | JStr s => Ok s
  | _ => Foreign key
  end.

Definition as_opt_str (key : string) (j : json) : result (option string) :=
  match j with
  | JNull => Ok None
  | JStr s => Ok (Some s)
  | _ => Foreign key
  end.

Definition as_int (key : string) (j : json) : result Z :=
  match j with
  | JInt n => Ok n
  | _ => Foreign key
  end.

Fixpoint strs_of (key : string) (l : list json) : result (list string) :=
  match l with
  | [] => Ok []
  | JStr s :: l' => r ← strs_of key l'; Ok (s :: r)
  | _ :: _ => Foreign key
  end.

Definition as_str_list (key : string) (j : json) : result (list string) :=
  match j with
  | JList l => strs_of key l
  | _ => Foreign key
  end.

Definition as_list (key : string) (j : json) : result (list json) :=
  match j with
  | JList l => Ok l
  | _ => Foreign key
  end.

Fixpoint str_items_of (key : string) (o : list (string * json))
    : result (dict string) :=
  match o with
  | [] => Ok []
  | (k, JStr s) :: o' => r ← str_items_of key o'; Ok ((k, s) :: r)
  | _ :: _ => Foreign key
  end.

Definition as_str_dict (key : string) (j : json) : result (dict string) :=
  match j with
  | JObj o => str_items_of key o
  | _ => Foreign key
  end.

(** The JSON value of typed data. *)
Definition json_of_opt_str (o : option string) : json :=
  match o with
  | Some s => JStr s
  | None => JNull
  end.

Definition json_of_strs (l : list string) : json := JList (map JStr l).

Definition json_of_str_dict (d : dict string) : json :=
  JObj (map (fun kv => (fst kv, JStr (snd kv))) d).

(* ===================================================================== *)
(** ** The dataclasses (prospect_profile.py, lines 40-116) *)
(* ===================================================================== *)

Record ContactInfo : Type := {
  email : option string;
  phone : option string;
  linkedin : option string;
  website : option string;
  twitter : option string;
  other : dict string
}.

Record GoalAlignment : Type := {
  relevance_score : RelevanceScore;
  fit_reasons : list string;
  potential_value : string;
  approach_priority : string;
  alignment_notes : string
}.

Record DiscoveryMetadata `{DateTime} : Type := {
  discovery_date : datetime;
  source_query : string;
  search_context : string;
  company_goal : string;
  discovering_company : string;
  discovery_session_id : string
}.

Record ProspectProfile `{DateTime} : Type := {
  (* Core identity *)
  profile_id : string;
  name : string;
  prospect_type : ProspectType;
  (* Business information *)
  business_description : string;
  industry : string;
  location : string;
  company_size : string;
  company_stage : string;
  contact_info : ContactInfo;
  goal_alignment : GoalAlignment;
  discovery_metadata : DiscoveryMetadata;
  (* Intelligence and insights *)
  recent_activities : list string;
  pain_points : list string;
  buying_signals : list string;
  budget_indicators : list string;
  decision_makers : list string;
  (* Engagement tracking *)
  status : ProspectStatus;
  interactions : list json;
  notes : list json;
  tags : list string;
  (* Opportunity assessment *)
  opportunity_description : string;
  estimated_value : string;
  timeline_indicators : string;
  competitor_analysis : string;
  (* System fields *)
  created_at : datetime;
  updated_at : datetime;
  version : Z
}.

(** What the constructor and [from_dict] read from their environment: one
    [uuid.uuid4()] and three [datetime.now()], for the discovery date, for
    [created_at] and for [updated_at], in this order. *)
Record env `{DateTime} : Type := {
  uuid4 : string;
  now_discovery : datetime;
  now_created : datetime;
  now_updated : datetime
}.

Section Entity.
Context `{DT : DateTime}.

(** The field defaults of the dataclasses. *)
Definition ContactInfo_default : ContactInfo :=
  {| email := None; phone := None; linkedin := None; website := None;
     twitter := None; other := [] |}.

Definition GoalAlignment_default : GoalAlignment :=
  {| relevance_score := UNSCORED; fit_reasons := [];
     potential_value := "To be determined"; approach_priority := "Medium";
     alignment_notes := "" |}.

Definition DiscoveryMetadata_default (e : env) : DiscoveryMetadata :=
  {| discovery_date := now_discovery e; source_query := "";
   search_context := "";
     company_goal := ""; discovering_company := "";
     discovery_session_id := "" |}.

(** [ProspectProfile()]. *)
Definition ProspectProfile_default (e : env) : ProspectProfile :=
  {| profile_id := uuid4 e; name := ""; prospect_type := OTHER;
     business_description := ""; industry := ""; location := "";
     company_size := ""; company_stage := "";
     contact_info := ContactInfo_default;
     goal_alignment := GoalAlignment_default;
     discovery_metadata := DiscoveryMetadata_default e;
     recent_activities := []; pain_points := []; buying_signals := [];
     budget_indicators := []; decision_makers := [];
     status := DISCOVERED; interactions := []; notes := []; tags := [];
     opportunity_description := ""; estimated_value := "";
     timeline_indicators := ""; competitor_analysis := "";
     created_at := now_created e; updated_at := now_updated e;
   version := 1 |}.

(** [ProspectProfile.to_dict] (lines 118-168). *)
Definition to_dict (self : ProspectProfile) : json :=
  JObj [
    ("profile_id", JStr (profile_id self));
    ("name", JStr (name self));
    ("prospect_type", JStr (ProspectType_value (prospect_type self)));
    ("business_description", JStr (business_description self));
    ("industry", JStr (industry self));
    ("location", JStr (location self));
    ("company_size", JStr (company_size self));
    ("company_stage", JStr (company_stage self));
    ("contact_info", JObj [
      ("email", json_of_opt_str (email (contact_info self)));
      ("phone", json_of_opt_str (phone (contact_info self)));
      ("linkedin", json_of_opt_str (linkedin (contact_info self)));
      ("website", json_of_opt_str (website (contact_info self)));
      ("twitter", json_of_opt_str (twitter (contact_info self)));
      ("other", json_of_str_dict (other (contact_info self)))
    ]);
    ("goal_alignment", JObj [
      ("relevance_score",
        JStr (RelevanceScore_value (relevance_score (goal_alignment self))));
      ("fit_reasons", json_of_strs (fit_reasons (goal_alignment self)));
      ("potential_value", JStr (potential_value (goal_alignment self)));
      ("approach_priority", JStr (approach_priority (goal_alignment self)));
      ("alignment_notes", JStr (alignment_notes (goal_alignment self)))
    ]);
    ("discovery_metadata", JObj [
      ("discovery_date",
        JStr (isoformat (discovery_date (discovery_metadata self))));
      ("source_query", JStr (source_query (discovery_metadata self)));
      ("search_context", JStr (search_context (discovery_metadata self)));
      ("company_goal", JStr (company_goal (discovery_metadata self)));
      ("discovering_company",
        JStr (discovering_company (discovery_metadata self)));
      ("discovery_session_id",
        JStr (discovery_session_id (discovery_metadata self)))
    ]);
    ("recent_activities", json_of_strs (recent_activities self));
    ("pain_points", json_of_strs (pain_points self));
    ("buying_signals", json_of_strs (buying_signals self));
    ("budget_indicators", json_of_strs (budget_indicators self));
    ("decision_makers", json_of_strs (decision_makers self));
    ("status", JStr (ProspectStatus_value (status self)));
    ("interactions", JList (interactions self));
    ("notes", JList (notes self));
    ("tags", json_of_strs (tags self));
    ("opportunity_description", JStr (opportunity_description self));
    ("estimated_value", JStr (estimated_value self));
    ("timeline_indicators", JStr (timeline_indicators self));
    ("competitor_analysis", JStr (competitor_analysis self));
    ("created_at", JStr (isoformat (created_at self)));
    ("updated_at", JStr (isoformat (updated_at self)));
    ("version", JInt (version self))
  ].

(** [datetime.fromisoformat(v)]: [TypeError] unless [v] is a string,
    [ValueError] when the string is not an ISO date. *)
Definition datetime_of_json (j : json) : result datetime :=
  match j with
  | JStr s =>
      match fromisoformat s with
      | Some d => Ok d
      | None => Raise ValueError
      end
  | _ => Raise TypeError
  end.

(** [ProspectProfile.from_dict] (lines 170-239). The object [cls()] built
    first has every field overwritten below. *)
Definition from_dict (e : env) (data : json) : result ProspectProfile :=
  data ← as_obj data;
  (* Core fields *)
  profile_id ← as_str "profile_id" (jget "profile_id" (JStr (uuid4 e)) data);
  name ← as_str "name" (jget "name" (JStr "") data);
  prospect_type ←
    ProspectType_of_json (jget "prospect_type" (JStr "other") data);
  business_description ←
    as_str "business_description" (jget "business_description" (JStr "") data);
  industry ← as_str "industry" (jget "industry" (JStr "") data);
  location ← as_str "location" (jget "location" (JStr "") data);
  company_size ← as_str "company_size" (jget "company_size" (JStr "") data);
  company_stage ← as_str "company_stage" (jget "company_stage" (JStr "") data);
  (* Contact info *)
  contact_data ← as_obj (jget "contact_info" (JObj []) data);
  email ← as_opt_str "email" (jget "email" JNull contact_data);
  phone ← as_opt_str "phone" (jget "phone" JNull contact_data);
  linkedin ← as_opt_str "linkedin" (jget "linkedin" JNull contact_data);
  website ← as_opt_str "website" (jget "website" JNull contact_data);
  twitter ← as_opt_str "twitter" (jget "twitter" JNull contact_data);
  other ← as_str_dict "other" (jget "other" (JObj []) contact_data);
  (* Goal alignment *)
  goal_data ← as_obj (jget "goal_alignment" (JObj []) data);
  relevance_score ←
    RelevanceScore_of_json (jget "relevance_score" (JStr "Unscored") goal_data);
  fit_reasons ← as_str_list "fit_reasons" (jget "fit_reasons" (JList []) goal_data);
  potential_value ←
    as_str "potential_value"
      (jget "potential_value" (JStr "To be determined") goal_data);
  approach_priority ←
    as_str "approach_priority" (jget "approach_priority" (JStr "Medium") goal_data);
  alignment_notes ←
    as_str "alignment_notes" (jget "alignment_notes" (JStr "") goal_data);
  (* Discovery metadata *)
  discovery_data ← as_obj (jget "discovery_metadata" (JObj []) data);
  discovery_date ←
    datetime_of_json
      (jget "discovery_date" (JStr (isoformat (now_discovery e)))
       discovery_data);
  source_query ← as_str "source_query" (jget "source_query" (JStr "") discovery_data);
  search_context ←
    as_str "search_context" (jget "search_context" (JStr "") discovery_data);
  company_goal ← as_str "company_goal" (jget "company_goal" (JStr "") discovery_data);
  discovering_company ←
    as_str "discovering_company"
      (jget "discovering_company" (JStr "") discovery_data);
  discovery_session_id ←
    as_str "discovery_session_id"
      (jget "discovery_session_id" (JStr "") discovery_data);
  (* Lists *)
  recent_activities ←
    as_str_list "recent_activities" (jget "recent_activities" (JList []) data);
  pain_points ← as_str_list "pain_points" (jget "pain_points" (JList []) data);
  buying_signals ←
    as_str_list "buying_signals" (jget "buying_signals" (JList []) data);
  budget_indicators ←
    as_str_list "budget_indicators" (jget "budget_indicators" (JList []) data);
  decision_makers ←
    as_str_list "decision_makers" (jget "decision_makers" (JList []) data);
  interactions ← as_list "interactions" (jget "interactions" (JList []) data);
  notes ← as_list "notes" (jget "notes" (JList []) data);
  tags ← as_str_list "tags" (jget "tags" (JList []) data);
  (* Status and assessment *)
  status ← ProspectStatus_of_json (jget "status" (JStr "discovered") data);
  opportunity_description ←
    as_str "opportunity_description"
      (jget "opportunity_description" (JStr "") data);
  estimated_value ← as_str "estimated_value" (jget "estimated_value" (JStr "") data);
  timeline_indicators ←
    as_str "timeline_indicators" (jget "timeline_indicators" (JStr "") data);
  competitor_analysis ←
    as_str "competitor_analysis" (jget "competitor_analysis" (JStr "") data);
  (* System fields *)
  created_at ←
    datetime_of_json
    (jget "created_at" (JStr (isoformat (now_created e))) data);
  updated_at ←
    datetime_of_json
    (jget "updated_at" (JStr (isoformat (now_updated e))) data);
  version ← as_int "version" (jget "version" (JInt 1) data);
  Ok {| profile_id := profile_id; name := name;
        prospect_type := prospect_type;
        business_description := business_description;
        industry := industry; location := location;
        company_size := company_size; company_stage := company_stage;
        contact_info :=
          {| email := email; phone := phone; linkedin := linkedin;
             website := website; twitter := twitter; other := other |};
        goal_alignment :=
          {| relevance_score := relevance_score;
             fit_reasons := fit_reasons;
             potential_value := potential_value;
             approach_priority := approach_priority;
             alignment_notes := alignment_notes |};
        discovery_metadata :=
          {| discovery_date := discovery_date;
             source_query := source_query;
             search_context := search_context;
             company_goal := company_goal;
             discovering_company := discovering_company;
             discovery_session_id := discovery_session_id |};
        recent_activities := recent_activities;
        pain_points := pain_points; buying_signals := buying_signals;
        budget_indicators := budget_indicators;
        decision_makers := decision_makers;
        status := status; interactions := interactions; notes := notes;
        tags := tags;
        opportunity_description := opportunity_description;
        estimated_value := estimated_value;
        timeline_indicators := timeline_indicators;
        competitor_analysis := competitor_analysis;
        created_at := created_at; updated_at := updated_at;
        version := version |}.

End Entity.

(* ===================================================================== *)
(** ** The in-memory mutators (prospect_profile.py, lines 241-277) *)
(* ===================================================================== *)

Section Mutators.
Context `{DT : DateTime}.

(** The profile [self] with its engagement and system fields assigned;
    every other field is kept. *)
Definition assign (self : ProspectProfile) (st : ProspectStatus)
    (ints nts : list json) (tgs : list string) (upd : datetime) (v : Z)
    : ProspectProfile :=
  {| profile_id := profile_id self; name := name self;
     prospect_type := prospect_type self;
     business_description := business_description self;
     industry := industry self; location := location self;
     company_size := company_size self;
     company_stage := company_stage self;
     contact_info := contact_info self;
     goal_alignment := goal_alignment self;
     discovery_metadata := discovery_metadata self;
     recent_activities := recent_activities self;
     pain_points := pain_points self;
     buying_signals := buying_signals self;
     budget_indicators := budget_indicators self;
     decision_makers := decision_makers self;
     status := st; interactions := ints; notes := nts; tags := tgs;
     opportunity_description := opportunity_description self;
     estimated_value := estimated_value self;
     timeline_indicators := timeline_indicators self;
     competitor_analysis := competitor_analysis self;
     created_at := created_at self; updated_at := upd; version := v |}.

(** [add_interaction]: [t_stamp] and [t_upd] are its two clock readings. *)
Definition add_interaction (self : ProspectProfile)
    (interaction_type content outcome : string) (t_stamp t_upd : datetime)
    : ProspectProfile :=
  let interaction :=
    JObj [("timestamp", JStr (isoformat t_stamp));
          ("type", JStr interaction_type);
          ("content", JStr content);
          ("outcome", JStr outcome);
          ("user", JStr "system")] in
  assign self (status self) (interactions self ++ [interaction])
    (notes self) (tags self) t_upd (version self + 1).

(** [add_note]. *)
Definition add_note (self : ProspectProfile) (note category : string)
    (t_stamp t_upd : datetime) : ProspectProfile :=
  let note_entry :=
    JObj [("timestamp", JStr (isoformat t_stamp));
          ("category", JStr category);
          ("content", JStr note);
          ("user", JStr "system")] in
  assign self (status self) (interactions self)
    (notes self ++ [note_entry]) (tags self) t_upd (version self + 1).

(** [update_status]. *)
Definition update_status (self : ProspectProfile)
    (new_status : ProspectStatus) (t_upd : datetime) : ProspectProfile :=
  assign self new_status (interactions self) (notes self) (tags self)
    t_upd (version self + 1).

(** [add_tag]: nothing happens when the tag is already there. *)
Definition add_tag (self : ProspectProfile) (tag : string)
    (t_upd : datetime) : ProspectProfile :=
  if bool_decide (tag ∈ tags self) then self
  else
    assign self (status self) (interactions self) (notes self)
      (tags self ++ [tag]) t_upd (version self + 1).

End Mutators.

(* ===================================================================== *)
(** ** Python lists, slices, sets and strings used by the store *)
(* ===================================================================== *)

(** [x in l] on a list of strings. *)
Definition contains (x : string) (l : list string) : bool :=
  bool_decide (x ∈ l).

(** [l.remove(x)]: drops the first occurrence (the store calls it only
    after testing [x in l]). *)
Fixpoint remove_first (x : string) (l : list string) : list string :=
  match l with
  | [] => []
  | y :: l' => if decide (x = y) then l' else y :: remove_first x l'
  end.

(** [l[start:stop]] for arbitrary integers: a negative bound counts from
    the end, and both bounds are clamped to the list. *)
Definition clamp (n i : Z) : Z :=
  if bool_decide (i < 0) then Z.max (i + n) 0 else Z.min i n.

Definition py_slice {A} (l : list A) (start stop : Z) : list A :=
  let n := Z.of_nat (length l) in
  let a := clamp n start in
  let b := clamp n stop in
  take (Z.to_nat (b - a)) (drop (Z.to_nat a) l).

(** [set(l)]. *)
Definition set_of (l : list string) : gset string := list_to_set l.

(** Truth value of a set: non-empty. *)
Definition nonempty (s : gset string) : bool := bool_decide (s ≠ ∅).

(** [s.lower()], on ASCII letters (Python also folds other alphabets). *)
Definition lower_ascii (c : ascii) : ascii :=
  let n := nat_of_ascii c in
  if bool_decide (65 ≤ n ≤ 90)%nat then ascii_of_nat (n + 32) else c.

Fixpoint lower (s : string) : string :=
  match s with
  | EmptyString => EmptyString
  | String c s' => String (lower_ascii c) (lower s')
  end.

(** [needle in hay] on strings. *)
Fixpoint is_substring (needle hay : string) : bool :=
  String.prefix needle hay ||
  match hay with
  | EmptyString => false
  | String _ hay' => is_substring needle hay'
  end.

(** [l.sort(key=..., reverse=True)]: a stable sort into descending key
    order; entries with equal keys keep their relative order. *)
Section Sort.
Context {A : Type} (key : A -> string).

Fixpoint insert_desc (x : A) (l : list A) : list A :=
  match l with
  | [] => [x]
  | y :: l' =>
      if String.ltb (key x) (key y) then y :: insert_desc x l'
      else x :: y :: l'
  end.

Definition sort_desc (l : list A) : list A := foldr insert_desc [] l.

(** [a] may stand before [b] in the sorted list. *)
Definition key_ge (a b : A) : Prop := String.le (key b) (key a).
End Sort.

(* ===================================================================== *)
(** ** The store (profile_storage.py) *)
(* ===================================================================== *)

(** The entry of a profile in [index["profiles"]] (lines 94-104). *)
Record summary : Type := {
  s_name : string;
  s_prospect_type : string;
  s_status : string;
  s_relevance_score : string;
  s_company_goal : string;
  s_discovering_company : string;
  s_created_at : string;
  s_updated_at : string;
  s_tags : list string
}.

(** [self.index] (lines 42-50). *)
Record Index : Type := {
  profiles : dict summary;
  by_company : dict (list string);
  by_goal : dict (list string);
  by_status : dict (list string);
  by_relevance : dict (list string);
  by_tags : dict (list string);
  last_updated : string
}.

(** [self.metadata] (lines 59-68). *)
Record Metadata : Type := {
  md_version : string;
  md_created_at : string;
  total_profiles : Z;
  last_backup : option string;
  storage_stats : Z * Z
}.

(** A [ProfileStorage] object with its directory: the profile files by
    profile id, and the index and metadata it holds in memory (and rewrites
    to [index.json] and [metadata.json] after each change). *)
Record ProfileStorage : Type := {
  files : gmap string content;
  index : Index;
  metadata : Metadata
}.

(** What the store prints. *)
Inductive line : Type :=
| Error_loading_profile (profile_id : string) (e : exn).

(** The keyword arguments of [search_profiles]. *)
Inductive tags_arg : Type :=
| OneTag (tag : string)
| TagList (l : list string).

Record filters : Type := {
  f_company : option string;
  f_goal : option string;
  f_status : option string;
  f_relevance : option string;
  f_tags : option tags_arg;
  f_name : option string;
  f_unknown : list string   (* keywords the method does not look at *)
}.

Definition no_filters : filters :=
  {| f_company := None; f_goal := None; f_status := None;
     f_relevance := None; f_tags := None; f_name := None; f_unknown := [] |}.

(** [search_profiles(status=s)] and
    [search_profiles(status=s, relevance=r)]. *)
Definition only_status (s : string) : filters :=
  {| f_company := None; f_goal := None; f_status := Some s;
     f_relevance := None; f_tags := None; f_name := None;
     f_unknown := [] |}.

Definition status_and_relevance (s r : string) : filters :=
  {| f_company := None; f_goal := None; f_status := Some s;
     f_relevance := Some r; f_tags := None; f_name := None;
     f_unknown := [] |}.

(** [not filters]: the keyword dict is empty. *)
Definition filters_empty (f : filters) : bool :=
  match f_company f, f_goal f, f_status f, f_relevance f, f_tags f,
        f_name f, f_unknown f with
  | None, None, None, None, None, None, [] => true
  | _, _, _, _, _, _, _ => false
  end.

(** The fresh index and metadata of [_init_index] / [_init_metadata]. *)
Definition empty_index (stamp : string) : Index :=
  {| profiles := []; by_company := []; by_goal := []; by_status := [];
     by_relevance := []; by_tags := []; last_updated := stamp |}.

Definition empty_metadata (stamp : string) : Metadata :=
  {| md_version := "1.0"; md_created_at := stamp; total_profiles := 0;
     last_backup := None; storage_stats := (0, 0) |}.

(** [ProfileStorage(dir)] on a directory that does not exist yet. *)
Definition empty_storage (stamp : string) : ProfileStorage :=
  {| files := ∅; index := empty_index stamp;
     metadata := empty_metadata stamp |}.

(** One secondary map, one key (lines 108-111 and the like):
    [if key not in m: m[key] = []], then
    [if profile_id not in m[key]: m[key].append(profile_id)]. *)
Definition bucket_add (key profile_id : string) (m : dict (list string))
    : dict (list string) :=
  let m1 := if mem key m then m else set key [] m in
  let bucket := get_default key [] m1 in
  if contains profile_id bucket then m1
  else set key (bucket ++ [profile_id])%list m1.

(** One secondary map, one key (lines 153-157 and the like). *)
Definition bucket_discard (key profile_id : string) (m : dict (list string))
    : dict (list string) :=
  match get key m with
  | Some bucket =>
      let bucket1 :=
        if contains profile_id bucket then remove_first profile_id bucket
        else bucket in
      match bucket1 with
      | [] => del key m
      | _ :: _ => set key bucket1 m
      end
  | None => m
  end.

(** [_save_index]: stamps the index (and writes it out). *)
Definition _save_index (stamp : string) (ix : Index) : Index :=
  {| profiles := profiles ix; by_company := by_company ix;
     by_goal := by_goal ix; by_status := by_status ix;
     by_relevance := by_relevance ix; by_tags := by_tags ix;
     last_updated := stamp |}.

(** [self.metadata["total_profiles"] = len(self.index["profiles"])]. *)
Definition recount (ix : Index) (md : Metadata) : Metadata :=
  {| md_version := md_version md; md_created_at := md_created_at md;
     total_profiles := Z.of_nat (length (profiles ix));
     last_backup := last_backup md; storage_stats := storage_stats md |}.

(** [_remove_from_index] (lines 141-186). *)
Definition _remove_from_index (profile_id : string) (ix : Index) : Index :=
  match get profile_id (profiles ix) with
  | None => ix
  | Some profile_data =>
      {| profiles := del profile_id (profiles ix);
         by_company :=
           bucket_discard (s_discovering_company profile_data) profile_id
             (by_company ix);
         by_goal :=
           bucket_discard (s_company_goal profile_data) profile_id
             (by_goal ix);
         by_status :=
           bucket_discard (s_status profile_data) profile_id (by_status ix);
         by_relevance :=
           bucket_discard (s_relevance_score profile_data) profile_id
             (by_relevance ix);
         by_tags :=
           fold_left (fun m tag => bucket_discard tag profile_id m)
             (s_tags profile_data) (by_tags ix);
         last_updated := last_updated ix |}
  end.

(** [search_profiles] (lines 294-367). [narrow results found] is the
    recurring [if results: results.intersection_update(found)]
    [else: results.update(found)]. *)
Definition narrow (results found : gset string) : gset string :=
  if nonempty results then results ∩ found else results ∪ found.

Definition by_key (m : dict (list string)) (arg : option string)
    (results : gset string) : gset string :=
  match arg with
  | Some key =>
      match get key m with
      | Some bucket => narrow results (set_of bucket)
      | None => results
      end
  | None => results
  end.

Definition tag_list (a : tags_arg) : list string :=
  match a with
  | OneTag tag => [tag]
  | TagList l => l
  end.

Definition search_profiles (self : ProfileStorage) (f : filters)
    : gset string :=
  let ix := index self in
  let results : gset string := ∅ in
  (* company: the first filter updates without looking at [results] *)
  let results :=
    match f_company f with
    | Some company =>
        match get company (by_company ix) with
        | Some bucket => results ∪ set_of bucket
        | None => results
        end
    | None => results
    end in
  let results := by_key (by_goal ix) (f_goal f) results in
  let results := by_key (by_status ix) (f_status f) results in
  let results := by_key (by_relevance ix) (f_relevance f) results in
  let results :=
    match f_tags f with
    | Some a =>
        let tag_results :=
          fold_left
            (fun acc tag =>
               match get tag (by_tags ix) with
               | Some bucket => acc ∪ set_of bucket
               | None => acc
               end)
            (tag_list a) (∅ : gset string) in
        narrow results tag_results
    | None => results
    end in
  let results :=
    match f_name f with
    | Some nm =>
        let name_filter := lower nm in
        let name_results :=
          map fst
            (filter (fun kv => is_substring name_filter (lower (s_name kv.2)))
               (items (profiles ix))) in
        narrow results (set_of name_results)
    | None => results
    end in
  if negb (nonempty results) && filters_empty f
  then set_of (keys (profiles ix))
  else results.

(** [list_profiles] (lines 272-292): each entry is the profile id with the
    index summary of the profile. *)
Definition list_profiles (self : ProfileStorage) (limit offset : Z)
    : list (string * summary) :=
  let profiles := items (profiles (index self)) in
  let profiles := sort_desc (fun x => s_updated_at x.2) profiles in
  py_slice profiles offset (offset + limit).

Section Store.
Context `{DT : DateTime}.

(** [_update_index] (lines 89-139). *)
Definition _update_index (profile : ProspectProfile) (ix : Index) : Index :=
  let profile_id := profile_id profile in
  {| profiles :=
       set profile_id
         {| s_name := name profile;
            s_prospect_type := ProspectType_value (prospect_type profile);
            s_status := ProspectStatus_value (status profile);
            s_relevance_score :=
              RelevanceScore_value
                (relevance_score (goal_alignment profile));
            s_company_goal := company_goal (discovery_metadata profile);
            s_discovering_company :=
              discovering_company (discovery_metadata profile);
            s_created_at := isoformat (created_at profile);
            s_updated_at := isoformat (updated_at profile);
            s_tags := tags profile |}
         (profiles ix);
     by_company :=
       bucket_add (discovering_company (discovery_metadata profile))
         profile_id (by_company ix);
     by_goal :=
       bucket_add (company_goal (discovery_metadata profile)) profile_id
         (by_goal ix);
     by_status :=
       bucket_add (ProspectStatus_value (status profile)) profile_id
         (by_status ix);
     by_relevance :=
       bucket_add
         (RelevanceScore_value (relevance_score (goal_alignment profile)))
         profile_id (by_relevance ix);
     by_tags :=
       fold_left (fun m tag => bucket_add tag profile_id m)
         (tags profile) (by_tags ix);
     last_updated := last_updated ix |}.

(** [save_profile] (lines 188-216); [t] is the clock reading of
    [_save_index]. *)
Definition save_profile (self : ProfileStorage) (profile : ProspectProfile)
    (t : datetime) : bool * ProfileStorage :=
  let files1 := <[profile_id profile := Doc (to_dict profile)]> (files self) in
  let index1 := _save_index (isoformat t) (_update_index profile (index self)) in
  (true,
   {| files := files1; index := index1;
      metadata := recount index1 (metadata self) |}).

(** [delete_profile] (lines 242-270). *)
Definition delete_profile (self : ProfileStorage) (profile_id : string)
    (t : datetime) : bool * ProfileStorage :=
  let files1 :=
    match files self !! profile_id with
    | Some _ => delete profile_id (files self)
    | None => files self
    end in
  let index1 :=
    _save_index (isoformat t) (_remove_from_index profile_id (index self)) in
  (true,
   {| files := files1; index := index1;
      metadata := recount index1 (metadata self) |}).

(** The body of the [try] of [load_profile] (lines 229-236): [Ok None]
    when there is no file, the exception when reading raises one. *)
Definition read_profile (self : ProfileStorage) (e : env)
    (profile_id : string) : result (option ProspectProfile) :=
  match files self !! profile_id with
  | None => Ok None
  | Some (Text _) => Raise JSONDecodeError
  | Some (Doc profile_data) =>
      profile ← from_dict e profile_data; Ok (Some profile)
  end.

(** [load_profile] (lines 218-240): what it returns and what it prints.
    Any exception is caught, printed, and answered with [None]. *)
Definition load_profile (self : ProfileStorage) (e : env)
    (profile_id : string) : result (option ProspectProfile * list line) :=
  match read_profile self e profile_id with
  | Ok r => Ok (r, [])
  | Raise ex => Ok (None, [Error_loading_profile profile_id ex])
  | Foreign key => Foreign key
  end.

End Store.

(* ===================================================================== *)
(** ** The manager (profile_manager.py, lines 333-417) *)
(* ===================================================================== *)

(** Each operation answers its boolean and the store it leaves. What
    [load_profile] printed on the way is not kept. [e] holds the readings of
    [from_dict], [t_save] the one of [_save_index]. *)
Module ProfileManager.
Section Manager.
Context `{DT : DateTime}.

Definition get_profile (storage : ProfileStorage) (e : env)
    (profile_id : string) : result (option ProspectProfile) :=
  r ← load_profile storage e profile_id; Ok r.1.

(** The frame shared by the four mutators: [load_profile], give up with
    [False] on [None], else change the object and [save_profile] it. *)
Definition load_change_save (storage : ProfileStorage) (e : env)
    (profile_id : string) (change : ProspectProfile -> ProspectProfile)
    (t_save : datetime) : result (bool * ProfileStorage) :=
  r ← load_profile storage e profile_id;
  match r.1 with
  | None => Ok (false, storage)
  | Some profile => Ok (save_profile storage (change profile) t_save)
  end.

Definition add_interaction (storage : ProfileStorage) (e : env)
    (profile_id interaction_type content outcome : string)
    (t_stamp t_upd t_save : datetime) : result (bool * ProfileStorage) :=
  load_change_save storage e profile_id
    (fun profile =>
       add_interaction profile interaction_type content outcome
         t_stamp t_upd)
    t_save.

Definition add_note (storage : ProfileStorage) (e : env)
    (profile_id note category : string) (t_stamp t_upd t_save : datetime)
    : result (bool * ProfileStorage) :=
  load_change_save storage e profile_id
    (fun profile => add_note profile note category t_stamp t_upd) t_save.

Definition update_status (storage : ProfileStorage) (e : env)
    (profile_id : string) (new_status : ProspectStatus)
    (t_upd t_save : datetime) : result (bool * ProfileStorage) :=
  load_change_save storage e profile_id
    (fun profile => update_status profile new_status t_upd) t_save.

Definition add_tag (storage : ProfileStorage) (e : env)
    (profile_id tag : string) (t_upd t_save : datetime)
    : result (bool * ProfileStorage) :=
  load_change_save storage e profile_id
    (fun profile => add_tag profile tag t_upd) t_save.

(** [update_profile] (lines 349-353): the one caller of [save_profile]
    that bumps the version itself. *)
Definition update_profile (storage : ProfileStorage)
    (profile : ProspectProfile) (t_upd t_save : datetime)
    : bool * ProfileStorage :=
  save_profile storage
    (assign profile (status profile) (interactions profile)
       (notes profile) (tags profile) t_upd (version profile + 1))
    t_save.

Definition delete_profile (storage : ProfileStorage) (profile_id : string)
    (t_save : datetime) : bool * ProfileStorage :=
  delete_profile storage profile_id t_save.

Definition list_profiles (storage : ProfileStorage) (limit offset : Z)
    : list (string * summary) :=
  list_profiles storage limit offset.

End Manager.
End ProfileManager.

(** The two operations that change which profiles the store holds. *)
Inductive op `{DateTime} : Type :=
| Save (profile : ProspectProfile) (t : datetime)
| Delete (profile_id : string) (t : datetime).

Definition apply_op `{DateTime} (st : ProfileStorage) (o : op)
    : ProfileStorage :=
  match o with
  | Save profile t => (save_profile st profile t).2
  | Delete profile_id t => (delete_profile st profile_id t).2
  end.

Definition run `{DateTime} (st : ProfileStorage) (ops : list op)
    : ProfileStorage :=
  fold_left apply_op ops st.

(* ===================================================================== *)
(** ** A small store to run the operations on *)
(* ===================================================================== *)

Module Fixture.

#[local] Existing Instance iso_text.

(** [ProspectProfile()] followed by assignments to its identity, goal,
    relevance, status and tags. *)
Definition profile_with (e : env) (nm goal : string)
    (rel : RelevanceScore) (st : ProspectStatus) (tgs : list string)
    : ProspectProfile :=
  let p := ProspectProfile_default e in
  {| profile_id := profile_id p; name := nm;
     prospect_type := prospect_type p;
     business_description := business_description p;
     industry := industry p; location := location p;
     company_size := company_size p; company_stage := company_stage p;
     contact_info := contact_info p;
     goal_alignment :=
       {| relevance_score := rel;
          fit_reasons := fit_reasons (goal_alignment p);
          potential_value := potential_value (goal_alignment p);
          approach_priority := approach_priority (goal_alignment p);
          alignment_notes := alignment_notes (goal_alignment p) |};
     discovery_metadata :=
       {| discovery_date := discovery_date (discovery_metadata p);
          source_query := source_query (discovery_metadata p);
          search_context := search_context (discovery_metadata p);
          company_goal := goal;
          discovering_company :=
            discovering_company (discovery_metadata p);
          discovery_session_id :=
            discovery_session_id (discovery_metadata p) |};
     recent_activities := recent_activities p;
     pain_points := pain_points p; buying_signals := buying_signals p;
     budget_indicators := budget_indicators p;
     decision_makers := decision_makers p;
     status := st; interactions := interactions p; notes := notes p;
     tags := tgs;
     opportunity_description := opportunity_description p;
     estimated_value := estimated_value p;
     timeline_indicators := timeline_indicators p;
     competitor_analysis := competitor_analysis p;
     created_at := created_at p; updated_at := updated_at p;
     version := version p |}.

Definition at_time (id : string) (t : datetime) : env :=
  {| uuid4 := id; now_discovery := t; now_created := t; now_updated := t |}.

Definition e1 : env := at_time "p1" "2024-03-01T09:00:00".
Definition e2 : env := at_time "p2" "2024-03-02T09:00:00".
Definition e9 : env := at_time "p9" "2024-03-09T09:00:00".

(** "Acme Inc", found for the goal "find clients". *)
Definition acme : ProspectProfile :=
  profile_with e1 "Acme Inc" "find clients" UNSCORED DISCOVERED [].

(** A second prospect, scored high and already tagged. *)
Definition globex : ProspectProfile :=
  profile_with e2 "Globex" "find clients" HIGH DISCOVERED ["x"].

Definition store0 : ProfileStorage := empty_storage "2024-03-01T08:00:00".

(** The store after [save_profile(acme)]. *)
Definition store1 : ProfileStorage :=
  (save_profile store0 acme "2024-03-01T09:00:01").2.

(** The store after [save_profile(acme)], [save_profile(globex)]. *)
Definition store2 : ProfileStorage :=
  (save_profile store1 globex "2024-03-02T09:00:01").2.

(** [store1] with a file that is not JSON and a document whose status is
    not a member of the enum. *)
Definition store_corrupt : ProfileStorage :=
  {| files :=
       <["bad" := Text "{ truncated"]>
         (<["odd" := Doc (JObj [("profile_id", JStr "odd");
                                ("status", JStr "unknown")])]>
            (files store1));
     index := index store1; metadata := metadata store1 |}.

(** [update_status("p1", CONTACTED)] on [store1], and the store it leaves. *)
Definition contacted_run : result (bool * ProfileStorage) :=
  ProfileManager.update_status store1 e9 "p1" CONTACTED
    "2024-03-04T10:00:00" "2024-03-04T10:00:01".

Definition store1_contacted : ProfileStorage :=
  match contacted_run with
  | Ok (_, st) => st
  | _ => store1
  end.

(** [add_tag("p2", "x")] twice on [store2], where "p2" already has "x". *)
Definition tagged_once : result (bool * ProfileStorage) :=
  ProfileManager.add_tag store2 e9 "p2" "x"
    "2024-03-04T11:00:00" "2024-03-04T11:00:01".

Definition store2_tagged_once : ProfileStorage :=
  match tagged_once with
  | Ok (_, st) => st
  | _ => store2
  end.

Definition tagged_twice : result (bool * ProfileStorage) :=
  ProfileManager.add_tag store2_tagged_once e9 "p2" "x"
    "2024-03-04T12:00:00" "2024-03-04T12:00:01".

Definition store2_tagged_twice : ProfileStorage :=
  match tagged_twice with
  | Ok (_, st) => st
  | _ => store2
  end.

End Fixture.

(* ===================================================================== *)
(** ** What the properties observe *)
(* ===================================================================== *)

(** The ids the index knows and the ids that have a file. *)
Definition indexed_ids (st : ProfileStorage) : gset string :=
  set_of (keys (profiles (index st))).

Definition stored_ids (st : ProfileStorage) : gset string :=
  dom (files st).

Definition consistent (st : ProfileStorage) : Prop :=
  indexed_ids st = stored_ids st.

(** What [load_profile] hands back to its caller, whatever it printed. *)
Definition returned `{DateTime}
    (r : result (option ProspectProfile * list line))
    : option (option ProspectProfile) :=
  match r with
  | Ok (v, _) => Some v
  | _ => None
  end.

(** The maps of the index, without its time stamp. *)
Definition index_maps (ix : Index) :=
  (profiles ix, by_company ix, by_goal ix, by_status ix, by_relevance ix,
   by_tags ix).

(** The sort key of [list_profiles], and the order it sorts into: the entry
    with the larger [updated_at] text first. *)
Definition updated_key (x : string * summary) : string := s_updated_at x.2.

Definition newest_first : relation (string * summary) := key_ge updated_key.

(* ===================================================================== *)
(** ** Statistics, backup and the reading operations of the manager *)
(* ===================================================================== *)

(** What [get_stats] answers (profile_storage.py, lines 393-401). *)
Record Stats : Type := {
  stats_total_profiles : Z;
  status_breakdown : dict Z;
  relevance_breakdown : dict Z;
  company_breakdown : dict Z;
  total_tags : Z;
  storage_location : string;
  stats_last_updated : string
}.

(** [counts = {}], then [counts[key] = len(ids)] for each item of a
    secondary map (lines 379-391). *)
Definition bucket_sizes (m : dict (list string)) : dict Z :=
  fold_left (fun counts kv => set kv.1 (Z.of_nat (length kv.2)) counts)
    (items m) [].

(** [get_stats] (lines 369-401); [storage_dir] is the directory of the
    store, as text. *)
Definition get_stats (storage_dir : string) (self : ProfileStorage) : Stats :=
  {| stats_total_profiles := Z.of_nat (length (profiles (index self)));
     status_breakdown := bucket_sizes (by_status (index self));
     relevance_breakdown := bucket_sizes (by_relevance (index self));
     company_breakdown := bucket_sizes (by_company (index self));
     total_tags := Z.of_nat (length (by_tags (index self)));
     storage_location := storage_dir;
     stats_last_updated := last_updated (index self) |}.

(** The archive [backup_profiles] writes (lines 421-425). *)
Record Backup : Type := {
  backup_metadata : Metadata;
  backup_index : Index;
  backup_documents : dict json
}.

(** What [backup_profiles] prints: the lines of the loads it makes, then
    the path of the archive. *)
Inductive backup_line : Type :=
| While_loading (l : line)
| Backup_created (backup_file : string).

(** [self.metadata["last_backup"] = ...]. *)
Definition stamp_backup (stamp : string) (md : Metadata) : Metadata :=
  {| md_version := md_version md; md_created_at := md_created_at md;
     total_profiles := total_profiles md;
     last_backup := Some stamp; storage_stats := storage_stats md |}.

Section Reads.
Context `{DT : DateTime}.

(** The loop of [backup_profiles] (lines 428-431) over the ids still to
    visit; [e id] holds the readings of the load of [id]. *)
Fixpoint backup_documents_of (self : ProfileStorage) (e : string -> env)
    (ids : list string) (acc : dict json * list backup_line)
    : result (dict json * list backup_line) :=
  match ids with
  | [] => Ok acc
  | profile_id :: ids' =>
      r ← load_profile self (e profile_id) profile_id;
      let printed := acc.2 ++ map While_loading r.2 in
      match r.1 with
      | Some profile =>
          backup_documents_of self e ids'
            (set profile_id (to_dict profile) acc.1, printed)
      | None => backup_documents_of self e ids' (acc.1, printed)
      end
  end.

(** [backup_profiles] (lines 403-446): its boolean, the store it leaves,
    the archive written to [backup_file] and what was printed. [t] is the
    clock reading stored as [last_backup]; the archive is written before. *)
Definition backup_profiles (self : ProfileStorage) (e : string -> env)
    (backup_file : string) (t : datetime)
    : result (bool * ProfileStorage * Backup * list backup_line) :=
  r ← backup_documents_of self e (keys (profiles (index self))) ([], []);
  let backup_data :=
    {| backup_metadata := metadata self; backup_index := index self;
       backup_documents := r.1 |} in
  Ok (true,
      {| files := files self; index := index self;
         metadata := stamp_backup (isoformat t) (metadata self) |},
      backup_data,
      r.2 ++ [Backup_created backup_file]).

(** [ProspectProfile.get_summary] (prospect_profile.py, lines 279-281). *)
Definition get_summary (self : ProspectProfile) : string :=
  (name self ++ " (" ++ ProspectType_value (prospect_type self) ++ ") - "
   ++ RelevanceScore_value (relevance_score (goal_alignment self))
   ++ " relevance - " ++ ProspectStatus_value (status self))%string.

End Reads.

(** The reading operations of [ProfileManager] (profile_manager.py, lines
    337-347 and 407-424). *)
Module ProfileManagerReads.
Section Reads.
Context `{DT : DateTime}.

(** The loop of [search_profiles] over the ids found: a profile that does
    not load is left out. *)
Fixpoint load_all (storage : ProfileStorage) (e : string -> env)
    (profile_ids : list string) : result (list ProspectProfile) :=
  match profile_ids with
  | [] => Ok []
  | profile_id :: ids' =>
      r ← load_profile storage (e profile_id) profile_id;
      rest ← load_all storage e ids';
      match r.1 with
      | Some profile => Ok (profile :: rest)
      | None => Ok rest
      end
  end.

(** [search_profiles]: the ids come out of a set, in an order of its own. *)
Definition search_profiles (storage : ProfileStorage) (e : string -> env)
    (f : filters) : result (list ProspectProfile) :=
  load_all storage e (elements (search_profiles storage f)).

Definition get_stats (storage_dir : string) (storage : ProfileStorage)
    : Stats :=
  get_stats storage_dir storage.

Definition backup_profiles (storage : ProfileStorage) (e : string -> env)
    (backup_file : string) (t : datetime)
    : result (bool * ProfileStorage * Backup * list backup_line) :=
  backup_profiles storage e backup_file t.

Definition get_profile_summary (storage : ProfileStorage) (e : env)
    (profile_id : string) : result (option string) :=
  r ← load_profile storage e profile_id;
  match r.1 with
  | Some profile => Ok (Some (get_summary profile))
  | None => Ok None
  end.

End Reads.
End ProfileManagerReads.

(* ===================================================================== *)
(** ** The shape of the index *)
(* ===================================================================== *)

(** A bucket as the index keeps it: not empty, no id twice. *)
Definition bucket_ok (bucket : list string) : Prop :=
  bucket <> [] /\ NoDup bucket.

(** A secondary map whose keys are distinct and whose buckets are all as
    above. *)
Definition buckets_ok (m : dict (list string)) : Prop :=
  NoDup (keys m) /\ Forall (fun kv => bucket_ok kv.2) m.

Definition index_ok (ix : Index) : Prop :=
  NoDup (keys (profiles ix)) /\
  buckets_ok (by_company ix) /\ buckets_ok (by_goal ix) /\
  buckets_ok (by_status ix) /\ buckets_ok (by_relevance ix) /\
  buckets_ok (by_tags ix).

(** [id] is in the bucket of [key]. *)
Definition listed (m : dict (list string)) (key id : string) : Prop :=
  exists bucket, get key m = Some bucket /\ id ∈ bucket.


(** Filters with one keyword. *)
Definition only_company (c : string) : filters :=
  {| f_company := Some c; f_goal := None; f_status := None;
     f_relevance := None; f_tags := None; f_name := None;
     f_unknown := [] |}.

Definition only_goal (g : string) : filters :=
  {| f_company := None; f_goal := Some g; f_status := None;
     f_relevance := None; f_tags := None; f_name := None;
     f_unknown := [] |}.

Definition only_relevance (r : string) : filters :=
  {| f_company := None; f_goal := None; f_status := None;
     f_relevance := Some r; f_tags := None; f_name := None;
     f_unknown := [] |}.

Definition only_tags (a : tags_arg) : filters :=
  {| f_company := None; f_goal := None; f_status := None;
     f_relevance := None; f_tags := Some a; f_name := None;
     f_unknown := [] |}.

Definition only_name (nm : string) : filters :=
  {| f_company := None; f_goal := None; f_status := None;
     f_relevance := None; f_tags := None; f_name := Some nm;
     f_unknown := [] |}.

(** The count in the metadata is the length of the summary map. *)
Definition counted (st : ProfileStorage) : Prop :=
  total_profiles (metadata st)
  = Z.of_nat (length (profiles (index st))).

(** What a bucket lookup answers as a set. *)
Definition bucket_set (m : dict (list string)) (key : string) : gset string :=
  match get key m with
  | Some bucket => set_of bucket
  | None => ∅
  end.

(** The paging of [get_profiles] in web_app.py (lines 314-316 and
    359-367) when no filter is given: the offset it passes to
    [list_profiles] and the number of pages it reports. [//] rounds
    towards minus infinity, as [Z.div] does. *)
Definition page_offset (page limit : Z) : Z := (page - 1) * limit.

Definition page_count (total_profiles limit : Z) : Z :=
  (total_profiles + limit - 1) / limit.

(* ===================================================================== *)
(** ** Sequences of in-memory mutations *)
(* ===================================================================== *)

(** A call of one of the four mutators of [ProspectProfile], with its
    arguments and clock readings. *)
Inductive mutation `{DateTime} : Type :=
| Add_interaction (interaction_type content outcome : string)
    (t_stamp t_upd : datetime)
| Add_note (note category : string) (t_stamp t_upd : datetime)
| Update_status (new_status : ProspectStatus) (t_upd : datetime)
| Add_tag (tag : string) (t_upd : datetime).

Definition mutate `{DateTime} (p : ProspectProfile) (m : mutation)
    : ProspectProfile :=
  match m with
  | Add_interaction ty content outcome t_stamp t_upd =>
      add_interaction p ty content outcome t_stamp t_upd
  | Add_note note category t_stamp t_upd =>
      add_note p note category t_stamp t_upd
  | Update_status new_status t_upd => update_status p new_status t_upd
  | Add_tag tag t_upd => add_tag p tag t_upd
  end.

Definition mutate_all `{DateTime} (p : ProspectProfile)
    (ms : list mutation) : ProspectProfile :=
  fold_left mutate ms p.

(** A call changes the profile unless it adds a tag that is there. *)
Definition changes `{DateTime} (p : ProspectProfile) (m : mutation) : bool :=
  match m with
  | Add_tag tag _ => negb (contains tag (tags p))
  | _ => true
  end.

(** How many calls of a sequence change the profile they find. *)
Fixpoint changing_calls `{DateTime} (p : ProspectProfile)
    (ms : list mutation) : nat :=
  match ms with
  | [] => 0
  | m :: ms' =>
      (if changes p m then 1 else 0) + changing_calls (mutate p m) ms'
  end.

(** The keys [from_dict] looks up in the document itself. *)
Definition top_level_keys : list string :=
  ["profile_id"; "name"; "prospect_type"; "business_description";
   "industry"; "location"; "company_size"; "company_stage"; "contact_info";
   "goal_alignment"; "discovery_metadata"; "recent_activities";
   "pain_points"; "buying_signals"; "budget_indicators"; "decision_makers";
   "interactions"; "notes"; "tags"; "status"; "opportunity_description";
   "estimated_value"; "timeline_indicators"; "competitor_analysis";
   "created_at"; "updated_at"; "version"].

(** [s] is the value of no member of the enum. *)
Definition not_a_value {E} (value : E -> string) (members : list E)
    (s : string) : Prop :=
  find_by_value value members s = None.

(** What no mutator touches. *)
Definition same_identity `{DateTime} (p q : ProspectProfile) : Prop :=
  profile_id q = profile_id p /\ created_at q = created_at p /\
  name q = name p /\ prospect_type q = prospect_type p /\
  contact_info q = contact_info p /\ goal_alignment q = goal_alignment p /\
  discovery_metadata q = discovery_metadata p.

(** Every profile file holds the document of a profile with the id of the
    file. *)
Definition documents_ok `{DateTime} (st : ProfileStorage) : Prop :=
  forall id c,
    files st !! id = Some c ->
    exists p, c = Doc (to_dict p) /\ profile_id p = id.

(** The call of [ProfileManager] that goes with a mutation. *)
Definition manager_call `{DateTime} (storage : ProfileStorage) (e : env)
    (profile_id : string) (m : mutation) (t_save : datetime)
    : result (bool * ProfileStorage) :=
  match m with
  | Add_interaction ty content outcome t_stamp t_upd =>
      ProfileManager.add_interaction storage e profile_id ty content outcome
        t_stamp t_upd t_save
  | Add_note note category t_stamp t_upd =>
      ProfileManager.add_note storage e profile_id note category
        t_stamp t_upd t_save
  | Update_status new_status t_upd =>
      ProfileManager.update_status storage e profile_id new_status
        t_upd t_save
  | Add_tag tag t_upd =>
      ProfileManager.add_tag storage e profile_id tag t_upd t_save
  end.

(** More stores to run the operations on. *)
Module MoreFixture.

#[local] Existing Instance iso_text.

(** The document of "p1" with a status that no member has. *)
Definition acme_fields : list (string * json) :=
  match to_dict Fixture.acme with
  | JObj o => o
  | _ => []
  end.

Definition store_bad_status : ProfileStorage :=
  {| files :=
       <["p1" := Doc (JObj (set "status" (JStr "unknown") acme_fields))]>
         (files Fixture.store1);
     index := index Fixture.store1; metadata := metadata Fixture.store1 |}.

Definition two_saves : list op :=
  [Save Fixture.acme "2024-03-01T09:00:01";
   Save Fixture.globex "2024-03-02T09:00:01"].

Definition readings (id : string) : env :=
  Fixture.at_time id "2024-03-09T09:00:00".

End MoreFixture.

(* ===================================================================== *)
(** ** Initial tags (profile_manager.py, lines 270-292) *)
(* ===================================================================== *)

(** [s.replace(' ', '_')]. *)
Fixpoint replace_spaces (s : string) : string :=
  match s with
  | EmptyString => EmptyString
  | String c s' =>
      String (if bool_decide (c = " "%char) then "_"%char else c)
        (replace_spaces s')
  end.

(** [prospect_data[key].lower()]: only a string has [lower]. *)
Definition lower_of (j : json) : result string :=
  match j with
  | JStr s => Ok (lower s)
  | _ => Raise AttributeError
  end.

(** [_generate_initial_tags]; [prospect_data] is the raw record of the
    prospect and [year_month] the text of [datetime.now().strftime('%Y-%m')]. *)
Definition _generate_initial_tags (prospect_data : dict json)
    (goal year_month : string) : result (list string) :=
  let tags := [("goal:" ++ replace_spaces (lower goal))%string] in
  tags ←
    match get "type" prospect_data with
    | Some v => s ← lower_of v; Ok (tags ++ [("type:" ++ s)%string])
    | None => Ok tags
    end;
  tags ←
    match get "industry" prospect_data with
    | Some v =>
        s ← lower_of v;
        Ok (tags ++ [("industry:" ++ replace_spaces s)%string])
    | None => Ok tags
    end;
  tags ←
    match get "location" prospect_data with
    | Some v =>
        s ← lower_of v;
        Ok (tags ++ [("location:" ++ replace_spaces s)%string])
    | None => Ok tags
    end;
  Ok (tags ++ [("discovered:" ++ year_month)%string]).


(* ===================================================================== *)
(** * Properties *)
(* ===================================================================== *)

(** ** Dictionaries *)

Section DictFacts.
Context {V : Type}.
Implicit Types (k : string) (v : V) (d : dict V).

Lemma get_set_eq k v d : get k (set k v d) = Some v.
Proof.
  induction d as [|[k' v'] d IH]; simpl.
  - by rewrite decide_True.
  - destruct (decide (k = k')) as [->|Hne]; simpl.
    + by rewrite decide_True.
    + by rewrite decide_False.
Qed.

Lemma get_set_ne k k' v d : k ≠ k' -> get k' (set k v d) = get k' d.
Proof.
  intros Hne. induction d as [|[k0 v0] d IH]; simpl.
  - by rewrite decide_False.
  - destruct (decide (k = k0)) as [->|Hk]; simpl.
    + by rewrite !decide_False.
    + by rewrite IH.
Qed.

Lemma get_del_eq k d : get k (del k d) = None.
Proof.
  induction d as [|[k' v'] d IH]; simpl; [done|].
  destruct (decide (k = k')) as [->|Hne]; simpl; [done|].
  by rewrite decide_False.
Qed.

Lemma get_del_ne k k' d : k ≠ k' -> get k' (del k d) = get k' d.
Proof.
  intros Hne. induction d as [|[k0 v0] d IH]; simpl; [done|].
  destruct (decide (k = k0)) as [->|Hk]; simpl.
  - by rewrite decide_False.
  - by rewrite IH.
Qed.

Lemma elem_of_keys k d : k ∈ keys d <-> is_Some (get k d).
Proof.
  unfold keys. induction d as [|[k' v'] d IH]; simpl.
  - split; [by intros ?%elem_of_nil | by intros [? ?]].
  - rewrite elem_of_cons, IH.
    destruct (decide (k = k')) as [->|Hne]; [naive_solver|]. tauto.
Qed.

Lemma get_None_keys k d : get k d = None <-> k ∉ keys d.
Proof.
  rewrite elem_of_keys, <- eq_None_not_Some. tauto.
Qed.

Lemma keys_set k v d :
  set_of (keys (set k v d)) = {[k]} ∪ set_of (keys d).
Proof.
  apply set_eq. intros x. unfold set_of.
  rewrite elem_of_union, elem_of_singleton, !elem_of_list_to_set,
    !elem_of_keys.
  destruct (decide (k = x)) as [->|Hne].
  - rewrite get_set_eq. naive_solver.
  - rewrite get_set_ne by done. naive_solver.
Qed.

Lemma keys_del k d :
  set_of (keys (del k d)) = set_of (keys d) ∖ {[k]}.
Proof.
  apply set_eq. intros x. unfold set_of.
  rewrite elem_of_difference, elem_of_singleton, !elem_of_list_to_set,
    !elem_of_keys.
  destruct (decide (k = x)) as [->|Hne].
  - rewrite get_del_eq. split; [by intros [? ?] | tauto].
  - rewrite get_del_ne by done. naive_solver.
Qed.

Lemma set_set k v v' d : set k v (set k v' d) = set k v d.
Proof.
  induction d as [|[k0 v0] d IH]; simpl.
  - by rewrite decide_True.
  - destruct (decide (k = k0)) as [->|Hne]; simpl.
    + by rewrite decide_True.
    + by rewrite decide_False, IH.
Qed.

End DictFacts.

(** ** The summary map and the profile files hold the same ids *)

Section Consistency.
Context `{DT : DateTime}.

Lemma consistent_empty stamp : consistent (empty_storage stamp).
Proof.
  unfold consistent, indexed_ids, stored_ids, set_of. simpl.
  by rewrite dom_empty_L.
Qed.

Lemma indexed_ids_save st p t :
  indexed_ids (save_profile st p t).2 = {[profile_id p]} ∪ indexed_ids st.
Proof. unfold indexed_ids. simpl. apply keys_set. Qed.

Lemma stored_ids_save st p t :
  stored_ids (save_profile st p t).2 = {[profile_id p]} ∪ stored_ids st.
Proof. unfold stored_ids. simpl. apply dom_insert_L. Qed.

Lemma indexed_ids_delete st id t :
  indexed_ids (delete_profile st id t).2 = indexed_ids st ∖ {[id]}.
Proof.
  unfold indexed_ids, _remove_from_index. simpl.
  unfold _remove_from_index.
  destruct (get id (profiles (index st))) as [s|] eqn:Hget; simpl.
  - apply keys_del.
  - apply get_None_keys in Hget. unfold set_of.
    assert (id ∉ (list_to_set (keys (profiles (index st))) : gset string))
      as Hnotin by by rewrite elem_of_list_to_set.
    set_solver.
Qed.

Lemma stored_ids_delete st id t :
  stored_ids (delete_profile st id t).2 = stored_ids st ∖ {[id]}.
Proof.
  unfold stored_ids. simpl.
  destruct (files st !! id) eqn:Hfile.
  - apply dom_delete_L.
  - apply not_elem_of_dom in Hfile. set_solver.
Qed.

Lemma consistent_apply_op st o : consistent st -> consistent (apply_op st o).
Proof.
  unfold consistent. intros Hinv. destruct o as [p t|id t].
  - change (apply_op st (Save p t)) with (save_profile st p t).2.
    by rewrite indexed_ids_save, stored_ids_save, Hinv.
  - change (apply_op st (Delete id t)) with (delete_profile st id t).2.
    by rewrite indexed_ids_delete, stored_ids_delete, Hinv.
Qed.

Lemma consistent_run ops : forall st, consistent st -> consistent (run st ops).
Proof.
  unfold run. induction ops as [|o ops IH]; intros st Hinv; simpl; [done|].
  apply IH. by apply consistent_apply_op.
Qed.


End Consistency.

(** ** Writing a profile out and reading it back *)

Lemma strs_of_json_of_strs key l : as_str_list key (json_of_strs l) = Ok l.
Proof.
  unfold json_of_strs. simpl.
  induction l as [|s l IH]; simpl; [done|]. by rewrite IH.
Qed.

Lemma str_dict_of_json key d : as_str_dict key (json_of_str_dict d) = Ok d.
Proof.
  unfold json_of_str_dict. simpl.
  induction d as [|[k v] d IH]; simpl; [done|]. by rewrite IH.
Qed.

Lemma opt_str_of_json key o : as_opt_str key (json_of_opt_str o) = Ok o.
Proof. by destruct o. Qed.

Lemma ProspectType_of_value t :
  ProspectType_of_json (JStr (ProspectType_value t)) = Ok t.
Proof. by destruct t. Qed.

Lemma RelevanceScore_of_value r :
  RelevanceScore_of_json (JStr (RelevanceScore_value r)) = Ok r.
Proof. by destruct r. Qed.

Lemma ProspectStatus_of_value s :
  ProspectStatus_of_json (JStr (ProspectStatus_value s)) = Ok s.
Proof. by destruct s. Qed.

Section RoundTrip.
Context `{DT : DateTime} {iso : IsoRoundTrip DT}.

Lemma datetime_of_isoformat d : datetime_of_json (JStr (isoformat d)) = Ok d.
Proof. unfold datetime_of_json. by rewrite iso_roundtrip. Qed.

(** [from_dict] finds under each key what [to_dict] put there; the
    conversions of the values are inverse to each other. *)
Lemma from_dict_to_dict (e : env) (p : ProspectProfile) :
  from_dict e (to_dict p) = Ok p.
Proof.
  destruct p as [? ? ? ? ? ? ? ? [] [] [] ? ? ? ? ? ? ? ? ? ? ? ? ? ? ? ?].
  cbv - [json_of_strs json_of_str_dict json_of_opt_str
         as_str_list as_str_dict as_opt_str
         ProspectType_of_json RelevanceScore_of_json ProspectStatus_of_json
         ProspectType_value RelevanceScore_value ProspectStatus_value
         datetime_of_json isoformat].
  rewrite !strs_of_json_of_strs, !str_dict_of_json, !opt_str_of_json,
    ProspectType_of_value, RelevanceScore_of_value, ProspectStatus_of_value,
    !datetime_of_isoformat.
  reflexivity.
Qed.

Lemma read_after_save st p t e :
  read_profile (save_profile st p t).2 e (profile_id p) = Ok (Some p).
Proof.
  unfold read_profile. simpl. rewrite lookup_insert_eq.
  by rewrite from_dict_to_dict.
Qed.

(** C5. A profile written by [to_dict] and read by [from_dict] comes back
    with every field as it was, and so does a profile saved to the store
    and loaded again: [save_profile] bumps nothing, so [version] and
    [updated_at] come back unchanged as well. *)
Theorem save_then_load_roundtrip (st : ProfileStorage)
    (p : ProspectProfile) (t : datetime) (e : env) :
  from_dict e (to_dict p) = Ok p /\
  load_profile (save_profile st p t).2 e (profile_id p) = Ok (Some p, []).
Proof.
  split; [apply from_dict_to_dict|].
  unfold load_profile. by rewrite read_after_save.
Qed.

End RoundTrip.

(** The contract holds of the instance that runs the model. *)
Lemma iso_text_roundtrip : IsoRoundTrip iso_text.
Proof. intros d. reflexivity. Qed.

Lemma save_then_load_roundtrip_witness :
  IsoRoundTrip iso_text /\
  from_dict Fixture.e9 (to_dict Fixture.acme) = Ok Fixture.acme /\
  load_profile
    (save_profile Fixture.store0 Fixture.acme "2024-03-01T09:00:01").2
    Fixture.e9 "p1"
  = Ok (Some Fixture.acme, []).
Proof.
  split; [intros d; reflexivity|].
  exact (@save_then_load_roundtrip iso_text (fun d => eq_refl)
           Fixture.store0 Fixture.acme "2024-03-01T09:00:01" Fixture.e9).
Defined.

(** ** A new profile and its first note *)

Section Fresh.
Context `{DT : DateTime}.

(** C8. A profile as the constructor makes it has status "discovered",
    relevance "Unscored" and version 1; one [add_note] later its version
    is 2 and its notes are one entry long. *)
Theorem fresh_profile_then_one_note (e : env) (note category : string)
    (t_stamp t_upd : datetime) :
  let p := ProspectProfile_default e in
  let p' := add_note p note category t_stamp t_upd in
  status p = DISCOVERED /\
  ProspectStatus_value (status p) = "discovered" /\
  relevance_score (goal_alignment p) = UNSCORED /\
  RelevanceScore_value (relevance_score (goal_alignment p)) = "Unscored" /\
  version p = 1 /\
  version p' = 2 /\
  length (notes p') = 1%nat.
Proof. repeat split. Qed.

End Fresh.

(** The same on the profile of the example: "Acme Inc", goal
    "find clients". *)
Example acme_then_one_note :
  let p := Fixture.acme in
  let p' :=
    add_note p "met at the fair" "general"
      "2024-03-03T10:00:00" "2024-03-03T10:00:00" in
  name p = "Acme Inc" /\
  company_goal (discovery_metadata p) = "find clients" /\
  ProspectStatus_value (status p) = "discovered" /\
  RelevanceScore_value (relevance_score (goal_alignment p)) = "Unscored" /\
  version p = 1 /\ version p' = 2 /\ length (notes p') = 1%nat.
Proof. repeat split. Qed.

(** ** Buckets only grow under [bucket_add] *)

Section Buckets.
Implicit Types (m : dict (list string)) (k id : string).

Lemma elem_of_contains id (b : list string) :
  contains id b = true <-> id ∈ b.
Proof. unfold contains. by rewrite bool_decide_eq_true. Qed.

(** [bucket_add] touches the bucket of its own key only. *)
Lemma bucket_add_other k k' id m :
  k <> k' -> get k' (bucket_add k id m) = get k' m.
Proof.
  intros Hne. unfold bucket_add.
  assert (get k' (if mem k m then m else set k [] m) = get k' m) as Hm1.
  { destruct (mem k m); [done|]. by apply get_set_ne. }
  destruct (contains id _); [done|].
  by rewrite get_set_ne.
Qed.

(** After [bucket_add] the id is in the bucket of the key. *)
Lemma bucket_add_has k id m :
  exists b, get k (bucket_add k id m) = Some b /\ id ∈ b.
Proof.
  unfold bucket_add. set (m1 := if mem k m then m else set k [] m).
  destruct (contains id (get_default k [] m1)) eqn:Hin.
  - apply elem_of_contains in Hin. unfold get_default in Hin.
    destruct (get k m1) as [b|] eqn:Hb; [by eauto|].
    by apply elem_of_nil in Hin.
  - rewrite get_set_eq. eexists. split; [done|].
    apply elem_of_app. right. by apply list_elem_of_singleton.
Qed.

(** [bucket_add] never takes an id out of a bucket. *)
Lemma bucket_add_keeps k k' id id' m b :
  get k' m = Some b -> id' ∈ b ->
  exists b', get k' (bucket_add k id m) = Some b' /\ id' ∈ b'.
Proof.
  intros Hb Hin. destruct (decide (k = k')) as [->|Hne].
  - unfold bucket_add. unfold mem. rewrite Hb.
    unfold get_default. rewrite Hb.
    destruct (contains id b); [by eauto|].
    rewrite get_set_eq. eexists. split; [done|].
    apply elem_of_app. by left.
  - rewrite bucket_add_other by done. eauto.
Qed.

(** Adding an id to a bucket that has it changes nothing. *)
Lemma bucket_add_noop k id m b :
  get k m = Some b -> id ∈ b -> bucket_add k id m = m.
Proof.
  intros Hb Hin. unfold bucket_add, mem, get_default. rewrite Hb. simpl.
  rewrite Hb. by rewrite (proj2 (elem_of_contains id b) Hin).
Qed.

(** The loop over the tags of a profile. *)
Lemma add_tags_keeps id (tgs : list string) : forall m k' id' b,
  get k' m = Some b -> id' ∈ b ->
  exists b',
    get k' (fold_left (fun m tag => bucket_add tag id m) tgs m) = Some b' /\
    id' ∈ b'.
Proof.
  induction tgs as [|tag tgs IH]; intros m k' id' b Hb Hin; simpl.
  - eauto.
  - destruct (bucket_add_keeps tag k' id id' m b Hb Hin) as (b1 & Hb1 & Hin1).
    by eapply IH.
Qed.

Lemma add_tags_has id (tgs : list string) : forall m tag,
  tag ∈ tgs ->
  exists b,
    get tag (fold_left (fun m tag => bucket_add tag id m) tgs m) = Some b /\
    id ∈ b.
Proof.
  induction tgs as [|t tgs IH]; intros m tag Hin; simpl.
  - by apply elem_of_nil in Hin.
  - apply elem_of_cons in Hin as [->|Hin]; [|by apply IH].
    destruct (bucket_add_has t id m) as (b & Hb & Hid).
    by eapply add_tags_keeps.
Qed.

Lemma add_tags_noop id (tgs : list string) : forall m,
  (forall tag, tag ∈ tgs -> exists b, get tag m = Some b /\ id ∈ b) ->
  fold_left (fun m tag => bucket_add tag id m) tgs m = m.
Proof.
  induction tgs as [|t tgs IH]; intros m Hall; simpl; [done|].
  destruct (Hall t) as (b & Hb & Hin); [by left|].
  rewrite (bucket_add_noop t id m b Hb Hin).
  apply IH. intros tag Htag. apply Hall. by right.
Qed.

Lemma bucket_add_idem k id m :
  bucket_add k id (bucket_add k id m) = bucket_add k id m.
Proof.
  destruct (bucket_add_has k id m) as (b & Hb & Hin).
  by eapply bucket_add_noop.
Qed.

Lemma add_tags_idem id (tgs : list string) m :
  let add := fold_left (fun m tag => bucket_add tag id m) tgs in
  add (add m) = add m.
Proof.
  simpl. apply add_tags_noop. intros tag Htag. by apply add_tags_has.
Qed.

End Buckets.

(** ** Saving changes nothing in the profile *)

Section SaveFrame.
Context `{DT : DateTime}.

Lemma to_dict_system_fields (p : ProspectProfile) :
  exists o,
    to_dict p = JObj o /\
    get "version" o = Some (JInt (version p)) /\
    get "updated_at" o = Some (JStr (isoformat (updated_at p))).
Proof. eexists. split; [reflexivity|]. split; reflexivity. Qed.

(** Updating the index twice with the same profile is updating it once. *)
Lemma update_index_idem (p : ProspectProfile) (ix : Index) (stamp : string) :
  index_maps (_update_index p (_save_index stamp (_update_index p ix)))
  = index_maps (_update_index p ix).
Proof.
  unfold index_maps, _update_index, _save_index. simpl.
  rewrite set_set, !bucket_add_idem.
  by rewrite (add_tags_idem (profile_id p) (tags p) (by_tags ix)).
Qed.

(** C10. [save_profile] takes the profile as it is: the document it
    writes is [to_dict] of the very profile it was given, with the
    profile's own [version] and [updated_at], and saving the same profile
    a second time writes the same document and leaves the files and the
    maps of the index as the first save left them. (The method assigns to
    no field of the profile, which the embedding passes by value.) *)
Theorem save_profile_writes_profile_as_given (st : ProfileStorage)
    (p : ProspectProfile) (t1 t2 : datetime) :
  let st1 := (save_profile st p t1).2 in
  let st2 := (save_profile st1 p t2).2 in
  files st1 !! profile_id p = Some (Doc (to_dict p)) /\
  files st2 !! profile_id p = Some (Doc (to_dict p)) /\
  files st2 = files st1 /\
  index_maps (index st2) = index_maps (index st1) /\
  (exists o,
     to_dict p = JObj o /\
     get "version" o = Some (JInt (version p)) /\
     get "updated_at" o = Some (JStr (isoformat (updated_at p)))) /\
  (save_profile st p t1).1 = true /\
  (save_profile st1 p t2).1 = true.
Proof.
  simpl. repeat split.
  - by rewrite lookup_insert_eq.
  - by rewrite lookup_insert_eq.
  - by rewrite insert_insert_eq.
  - apply update_index_idem.
  - apply to_dict_system_fields.
Qed.

(** By contrast [ProfileManager.update_profile] bumps before it saves. *)
Lemma update_profile_bumps (st : ProfileStorage) (p : ProspectProfile)
    (t_upd t_save : datetime) :
  exists o,
    files (ProfileManager.update_profile st p t_upd t_save).2
      !! profile_id p = Some (Doc (JObj o)) /\
    get "version" o = Some (JInt (version p + 1)) /\
    get "updated_at" o = Some (JStr (isoformat t_upd)).
Proof.
  eexists. split; [|split].
  - unfold ProfileManager.update_profile. simpl.
    rewrite lookup_insert_eq. reflexivity.
  - reflexivity.
  - reflexivity.
Qed.

End SaveFrame.

(** ** Loading: found, not found, unreadable *)

Section Load.
Context `{DT : DateTime}.


(** In particular the value handed back never tells an unreadable record
    from a missing one. *)
Lemma load_profile_unreadable_is_None (st : ProfileStorage) (e : env)
    (id : string) (ex : exn) :
  read_profile st e id = Raise ex ->
  returned (load_profile st e id) = Some None.
Proof. unfold load_profile. by intros ->. Qed.

End Load.


(** ** Deleting an id the store does not hold *)

Section DeleteMissing.
Context `{DT : DateTime}.

(** [delete_profile] answers [True] on every path the model has. *)
Lemma delete_profile_always_true (st : ProfileStorage) (id : string)
    (t : datetime) :
  (delete_profile st id t).1 = true.
Proof. reflexivity. Qed.

(** In a store whose index and files agree, an id without a file has no
    summary either. *)
Lemma consistent_no_file_no_summary (st : ProfileStorage) (id : string) :
  consistent st -> files st !! id = None ->
  get id (profiles (index st)) = None.
Proof.
  unfold consistent, indexed_ids, stored_ids, set_of. intros Hinv Hfile.
  apply get_None_keys. intros Hin.
  apply not_elem_of_dom in Hfile. apply Hfile.
  rewrite <- Hinv. by apply elem_of_list_to_set.
Qed.


End DeleteMissing.



(** ** Searching by status and relevance *)

Section Search.

Lemma nonempty_empty : nonempty ∅ = false.
Proof. unfold nonempty. apply bool_decide_eq_false_2. intros H. by apply H. Qed.

Lemma nonempty_false (X : gset string) : nonempty X = false -> X = ∅.
Proof.
  unfold nonempty. intros H%bool_decide_eq_false. by apply dec_stable.
Qed.

Lemma narrow_first (found : gset string) : narrow ∅ found = found.
Proof. unfold narrow. rewrite nonempty_empty. set_solver. Qed.

(** Without filters the search answers every id of the summary map. *)
Lemma search_no_filters (st : ProfileStorage) :
  search_profiles st no_filters = indexed_ids st.
Proof.
  unfold search_profiles, by_key. simpl. by rewrite nonempty_empty.
Qed.

(** A search by status alone is the bucket of that status. *)
Lemma search_only_status (st : ProfileStorage) (s : string) :
  search_profiles st (only_status s)
  = match get s (by_status (index st)) with
    | Some b => set_of b
    | None => ∅
    end.
Proof.
  unfold search_profiles.
  replace (filters_empty (only_status s)) with false by reflexivity.
  rewrite andb_false_r. unfold by_key. simpl.
  destruct (get s (by_status (index st))) as [b|]; [|done].
  apply narrow_first.
Qed.

(** A search by status and relevance: what [search_profiles] computes,
    case by case. Only when both keys have a bucket is it their
    intersection; a key without a bucket is passed over. *)
Lemma search_status_and_relevance (st : ProfileStorage) (s r : string) :
  search_profiles st (status_and_relevance s r)
  = match get s (by_status (index st)), get r (by_relevance (index st)) with
    | Some bs, Some br =>
        if nonempty (set_of bs) then set_of bs ∩ set_of br else set_of br
    | Some bs, None => set_of bs
    | None, Some br => set_of br
    | None, None => ∅
    end.
Proof.
  unfold search_profiles.
  replace (filters_empty (status_and_relevance s r)) with false
    by reflexivity.
  rewrite andb_false_r. unfold by_key. simpl.
  destruct (get s (by_status (index st))) as [bs|],
           (get r (by_relevance (index st))) as [br|];
    rewrite ?narrow_first; try done.
  unfold narrow. destruct (nonempty (set_of bs)) eqn:Hbs; [done|].
  apply nonempty_false in Hbs. rewrite Hbs. set_solver.
Qed.

End Search.

(** ** Mutators on a stored profile: a change of status, a note *)

Section StoredProfiles.
Context `{DT : DateTime} {iso : IsoRoundTrip DT}.

(** A profile whose document is on disk loads as itself. *)
Lemma load_stored (st : ProfileStorage) (e : env) (p : ProspectProfile)
    (id : string) :
  files st !! id = Some (Doc (to_dict p)) ->
  load_profile st e id = Ok (Some p, []).
Proof.
  intros Hfile. unfold load_profile, read_profile.
  by rewrite Hfile, from_dict_to_dict.
Qed.

Lemma load_change_save_stored (st : ProfileStorage) (e : env)
    (p : ProspectProfile) (id : string)
    (change : ProspectProfile -> ProspectProfile) (t_save : datetime) :
  files st !! id = Some (Doc (to_dict p)) ->
  ProfileManager.load_change_save st e id change t_save
  = Ok (save_profile st (change p) t_save).
Proof.
  intros Hfile. unfold ProfileManager.load_change_save.
  by rewrite (load_stored st e p id Hfile).
Qed.

(** [update_status] re-saves the profile, and the index update only adds:
    the id enters the bucket of the new status and stays in the bucket of
    the old one. *)
Lemma status_bucket_survives_update (st : ProfileStorage) (e : env)
    (p : ProspectProfile) (new_status : ProspectStatus)
    (t_upd t_save : datetime) :
  files st !! profile_id p = Some (Doc (to_dict p)) ->
  profile_id p
    ∈ search_profiles st
        (only_status (ProspectStatus_value (status p))) ->
  exists st',
    ProfileManager.update_status st e (profile_id p) new_status t_upd t_save
    = Ok (true, st') /\
    profile_id p
      ∈ search_profiles st'
          (only_status (ProspectStatus_value (status p))) /\
    profile_id p
      ∈ search_profiles st'
          (only_status (ProspectStatus_value new_status)).
Proof.
  intros Hfile Hold. unfold ProfileManager.update_status.
  rewrite (load_change_save_stored st e p _ _ _ Hfile).
  eexists. split; [reflexivity|].
  rewrite search_only_status in Hold. rewrite !search_only_status. simpl.
  split.
  - destruct (get (ProspectStatus_value (status p)) (by_status (index st)))
      as [b|] eqn:Hb; [|by apply not_elem_of_empty in Hold].
    apply elem_of_list_to_set in Hold.
    destruct (bucket_add_keeps (ProspectStatus_value new_status)
                (ProspectStatus_value (status p)) (profile_id p)
                (profile_id p) _ b Hb Hold) as (b' & -> & Hin).
    by apply elem_of_list_to_set.
  - destruct (bucket_add_has (ProspectStatus_value new_status) (profile_id p)
                (by_status (index st))) as (b' & -> & Hin).
    by apply elem_of_list_to_set.
Qed.

(** [ProfileManager.add_note] on a stored profile: the stored version goes
    up by one and the notes grow by one entry. *)
Lemma manager_add_note_stored (st : ProfileStorage) (e e' : env)
    (p : ProspectProfile) (note category : string)
    (t_stamp t_upd t_save : datetime) :
  files st !! profile_id p = Some (Doc (to_dict p)) ->
  exists st' p',
    ProfileManager.add_note st e (profile_id p) note category
      t_stamp t_upd t_save = Ok (true, st') /\
    load_profile st' e' (profile_id p) = Ok (Some p', []) /\
    version p' = version p + 1 /\
    length (notes p') = S (length (notes p)).
Proof.
  intros Hfile. unfold ProfileManager.add_note.
  rewrite (load_change_save_stored st e p _ _ _ Hfile).
  eexists _, (add_note p note category t_stamp t_upd).
  split; [reflexivity|]. split; [|split].
  - apply load_stored. simpl. by rewrite lookup_insert_eq.
  - reflexivity.
  - simpl. rewrite length_app. simpl. lia.
Qed.

End StoredProfiles.

(** C1 on the code: "p1" is saved as discovered and then moved to
    contacted with [update_status]. The call succeeds and the stored
    profile is contacted, the search by "contacted" finds "p1"; but the
    search by "discovered" still finds "p1" too, since its id was never
    taken out of the old bucket. *)
Theorem stale_status_bucket_after_update_status :
  let st := Fixture.store1_contacted in
  status Fixture.acme = DISCOVERED /\
  elements (search_profiles Fixture.store1 (only_status "discovered"))
  = ["p1"] /\
  Fixture.contacted_run = Ok (true, st) /\
  option_map (option_map status)
    (returned (load_profile st Fixture.e9 "p1"))
  = Some (Some CONTACTED) /\
  by_status (index st) = [("discovered", ["p1"]); ("contacted", ["p1"])] /\
  elements (search_profiles st (only_status "contacted")) = ["p1"] /\
  elements (search_profiles st (only_status "discovered")) = ["p1"].
Proof. vm_compute. repeat split. Qed.

(** C2 on the code: [store1] holds one profile, "p1", discovered and
    unscored. No profile is qualified, so the status bucket "qualified" is
    the empty set and so is its intersection with any other bucket; the
    search by that status alone answers nothing, yet the search for
    qualified and unscored profiles answers "p1" (and so does the search
    for discovered profiles of high relevance, of which there is none). *)
Theorem search_passes_over_missing_bucket :
  let st := Fixture.store1 in
  get "qualified" (by_status (index st)) = None /\
  get "Unscored" (by_relevance (index st)) = Some ["p1"] /\
  get "discovered" (by_status (index st)) = Some ["p1"] /\
  elements (search_profiles st (only_status "qualified")) = [] /\
  elements
    (search_profiles st (status_and_relevance "qualified" "Unscored"))
  = ["p1"] /\
  elements
    (search_profiles st (status_and_relevance "discovered" "High"))
  = ["p1"].
Proof. vm_compute. repeat split. Qed.

(** ** Adding the same tag twice *)

Lemma count_occ_new (x : string) (l : list string) :
  contains x l = false -> count_occ string_dec (l ++ [x]) x = 1%nat.
Proof.
  intros Hnot. rewrite count_occ_app. simpl.
  destruct (string_dec x x) as [_|Hne]; [|done].
  assert (count_occ string_dec l x = 0%nat) as ->; [|done].
  apply count_occ_not_In. rewrite <- list_elem_of_In.
  intros Hin%elem_of_contains. congruence.
Qed.

Section AddTag.
Context `{DT : DateTime} {iso : IsoRoundTrip DT}.

(** In memory: the first [add_tag] of a new tag appends it and bumps the
    version, a second one changes nothing. *)
Lemma add_tag_new (p : ProspectProfile) (x : string) (t : datetime) :
  contains x (tags p) = false ->
  tags (add_tag p x t) = tags p ++ [x] /\
  version (add_tag p x t) = version p + 1 /\
  profile_id (add_tag p x t) = profile_id p.
Proof.
  unfold add_tag, contains. intros ->. by repeat split.
Qed.

Lemma add_tag_present (p : ProspectProfile) (x : string) (t : datetime) :
  contains x (tags p) = true -> add_tag p x t = p.
Proof. unfold add_tag, contains. by intros ->. Qed.

(** Through the manager, a tag the profile already has: the call answers
    [True] and the document on disk stays as it was. *)
Lemma manager_add_tag_present (st : ProfileStorage) (e : env)
    (p : ProspectProfile) (x : string) (t_upd t_save : datetime) :
  files st !! profile_id p = Some (Doc (to_dict p)) ->
  contains x (tags p) = true ->
  exists st',
    ProfileManager.add_tag st e (profile_id p) x t_upd t_save = Ok (true, st')
    /\ files st' = files st.
Proof.
  intros Hfile Hin. unfold ProfileManager.add_tag.
  rewrite (load_change_save_stored st e p _ _ _ Hfile).
  rewrite add_tag_present by done.
  eexists. split; [reflexivity|]. simpl. by apply insert_id.
Qed.

(** C4, as the code has it. For a stored profile that does not carry the
    tag yet, two [add_tag] calls with that tag both answer [True]; after the
    first the stored profile has the tag appended and its version one
    higher; the second changes neither the tag list nor the version, nor
    any file. The tag then occurs exactly once. *)
Theorem add_tag_twice_new_tag (st : ProfileStorage) (e1 e2 e3 : env)
    (p : ProspectProfile) (x : string) (t1 s1 t2 s2 : datetime) :
  files st !! profile_id p = Some (Doc (to_dict p)) ->
  contains x (tags p) = false ->
  exists st1 st2 p',
    ProfileManager.add_tag st e1 (profile_id p) x t1 s1 = Ok (true, st1) /\
    ProfileManager.add_tag st1 e2 (profile_id p) x t2 s2 = Ok (true, st2) /\
    load_profile st1 e3 (profile_id p) = Ok (Some p', []) /\
    load_profile st2 e3 (profile_id p) = Ok (Some p', []) /\
    files st2 = files st1 /\
    tags p' = tags p ++ [x] /\
    count_occ string_dec (tags p') x = 1%nat /\
    version p' = version p + 1.
Proof.
  intros Hfile Hnew.
  destruct (add_tag_new p x t1 Hnew) as (Htags & Hver & Hid).
  set (p' := add_tag p x t1).
  set (st1 := (save_profile st p' s1).2).
  assert (files st1 !! profile_id p' = Some (Doc (to_dict p'))) as Hfile1.
  { unfold st1. simpl. by rewrite lookup_insert_eq. }
  assert (contains x (tags p') = true) as Hin.
  { apply elem_of_contains. unfold p'. rewrite Htags.
    apply elem_of_app. right. by apply list_elem_of_singleton. }
  destruct (manager_add_tag_present st1 e2 p' x t2 s2 Hfile1 Hin)
    as (st2 & Hsecond & Hfiles).
  fold p' in Hid. rewrite Hid in Hsecond, Hfile1.
  exists st1, st2, p'. repeat split.
  - unfold ProfileManager.add_tag.
    by rewrite (load_change_save_stored st e1 p _ _ _ Hfile).
  - exact Hsecond.
  - by apply load_stored.
  - apply load_stored. by rewrite Hfiles.
  - exact Hfiles.
  - exact Htags.
  - unfold p'. rewrite Htags. by apply count_occ_new.
  - exact Hver.
Qed.

End AddTag.

Lemma add_tag_twice_new_tag_witness :
  files Fixture.store1 !! "p1" = Some (Doc (to_dict Fixture.acme)) /\
  contains "x" (tags Fixture.acme) = false /\
  exists st1 st2 p',
    ProfileManager.add_tag Fixture.store1 Fixture.e9 "p1" "x"
      "2024-03-04T11:00:00" "2024-03-04T11:00:01" = Ok (true, st1) /\
    ProfileManager.add_tag st1 Fixture.e9 "p1" "x"
      "2024-03-04T12:00:00" "2024-03-04T12:00:01" = Ok (true, st2) /\
    load_profile st1 Fixture.e9 "p1" = Ok (Some p', []) /\
    load_profile st2 Fixture.e9 "p1" = Ok (Some p', []) /\
    files st2 = files st1 /\
    tags p' = tags Fixture.acme ++ ["x"] /\
    count_occ string_dec (tags p') "x" = 1%nat /\
    version p' = version Fixture.acme + 1.
Proof.
  split; [vm_compute; reflexivity|]. split; [reflexivity|].
  apply (@add_tag_twice_new_tag iso_text (fun d => eq_refl)
           Fixture.store1 Fixture.e9 Fixture.e9 Fixture.e9 Fixture.acme "x"
           "2024-03-04T11:00:00" "2024-03-04T11:00:01"
           "2024-03-04T12:00:00" "2024-03-04T12:00:01").
  - vm_compute. reflexivity.
  - reflexivity.
Defined.

(** C4 as stated fails for a profile that already carries the tag: "p2" is
    stored with tags ["x"] and version 1; both calls answer [True] and the
    stored version is still 1, not 2. *)
Lemma add_tag_twice_on_tagged_profile :
  tags Fixture.globex = ["x"] /\
  version Fixture.globex = 1 /\
  returned (load_profile Fixture.store2 Fixture.e9 "p2")
  = Some (Some Fixture.globex) /\
  Fixture.tagged_once = Ok (true, Fixture.store2_tagged_once) /\
  Fixture.tagged_twice = Ok (true, Fixture.store2_tagged_twice) /\
  option_map (option_map version)
    (returned (load_profile Fixture.store2_tagged_twice Fixture.e9 "p2"))
  = Some (Some 1) /\
  option_map (option_map version)
    (returned (load_profile Fixture.store2_tagged_twice Fixture.e9 "p2"))
  <> Some (Some (version Fixture.globex + 1)) /\
  option_map (option_map tags)
    (returned (load_profile Fixture.store2_tagged_twice Fixture.e9 "p2"))
  = Some (Some ["x"]).
Proof. vm_compute. repeat split. discriminate. Qed.

(** ** Listing: newest first, one page *)

Section Slices.
Context {A : Type}.
Implicit Types (l : list A).

(** With bounds that are not negative a slice is [drop] then [take]. *)
Lemma py_slice_from_count l (offset limit : Z) :
  0 <= offset -> 0 <= limit ->
  py_slice l offset (offset + limit)
  = take (Z.to_nat limit) (drop (Z.to_nat offset) l).
Proof.
  intros Hoff Hlim. unfold py_slice, clamp.
  rewrite !bool_decide_eq_false_2 by lia.
  destruct (Z.le_gt_cases offset (Z.of_nat (length l))) as [Hin|Hout].
  - rewrite (Z.min_l offset) by lia.
    destruct (Z.le_gt_cases (offset + limit) (Z.of_nat (length l)))
      as [Hfit|Hover].
    + rewrite Z.min_l by lia. f_equal. lia.
    + rewrite Z.min_r by lia.
      rewrite !take_ge; [done| |].
      all: rewrite length_drop; lia.
  - rewrite !Z.min_r by lia. rewrite Z.sub_diag. simpl.
    rewrite !drop_ge by lia. by rewrite !take_nil.
Qed.

End Slices.

Section Sorting.
Context {A : Type} (key : A -> string).

Lemma ltb_true_le (s1 s2 : string) :
  String.ltb s1 s2 = true -> String.le s1 s2.
Proof.
  unfold String.ltb, String.le, String.leb.
  by destruct (String.compare s1 s2).
Qed.

Lemma ltb_false_ge (s1 s2 : string) :
  String.ltb s1 s2 = false -> String.le s2 s1.
Proof.
  unfold String.ltb, String.le, String.leb.
  rewrite (String.compare_antisym s1 s2).
  by destruct (String.compare s2 s1).
Qed.

Lemma insert_desc_perm (x : A) (l : list A) : insert_desc key x l ≡ₚ x :: l.
Proof.
  induction l as [|y l IH]; simpl; [done|].
  destruct (String.ltb (key x) (key y)); [|done].
  rewrite IH. apply Permutation_swap.
Qed.

Lemma sort_desc_perm (l : list A) : sort_desc key l ≡ₚ l.
Proof.
  unfold sort_desc. induction l as [|x l IH]; simpl; [done|].
  by rewrite insert_desc_perm, IH.
Qed.

Lemma insert_desc_sorted (x : A) (l : list A) :
  StronglySorted (key_ge key) l ->
  StronglySorted (key_ge key) (insert_desc key x l).
Proof.
  induction 1 as [|y l Hsorted IH Hall]; simpl.
  - repeat constructor.
  - destruct (String.ltb (key x) (key y)) eqn:Hlt.
    + constructor; [done|].
      rewrite insert_desc_perm. constructor; [|done].
      by apply ltb_true_le.
    + apply ltb_false_ge in Hlt.
      constructor; [by constructor|].
      constructor; [done|].
      eapply Forall_impl; [exact Hall|].
      intros z Hz. unfold key_ge in *. by etrans.
Qed.

Lemma sort_desc_sorted (l : list A) :
  StronglySorted (key_ge key) (sort_desc key l).
Proof.
  unfold sort_desc. induction l as [|x l IH]; simpl; [constructor|].
  by apply insert_desc_sorted.
Qed.

Lemma take_drop_sorted (R : relation A) (l : list A) (n m : nat) :
  StronglySorted R l -> StronglySorted R (take n (drop m l)).
Proof.
  intros Hl.
  rewrite <- (take_drop m l) in Hl. apply StronglySorted_app_1_r in Hl.
  rewrite <- (take_drop n (drop m l)) in Hl.
  by apply StronglySorted_app_1_l in Hl.
Qed.

End Sorting.

(** C9, as the code has it. For a limit and an offset that are not
    negative, [list_profiles] sorts the entries of the summary map of the
    index by the text of [updated_at], larger first, skips [offset] of them
    and answers the next [limit] at most; every entry it answers is an id
    with its index summary. *)
Theorem list_profiles_page (st : ProfileStorage) (limit offset : Z) :
  0 <= limit -> 0 <= offset ->
  let all := sort_desc updated_key (items (profiles (index st))) in
  all ≡ₚ items (profiles (index st)) /\
  StronglySorted newest_first all /\
  list_profiles st limit offset
  = take (Z.to_nat limit) (drop (Z.to_nat offset) all) /\
  StronglySorted newest_first (list_profiles st limit offset) /\
  Z.of_nat (length (list_profiles st limit offset)) <= limit /\
  (forall x, x ∈ list_profiles st limit offset ->
     get x.1 (profiles (index st)) <> None /\
     x ∈ items (profiles (index st))).
Proof.
  intros Hlim Hoff all.
  assert (list_profiles st limit offset
          = take (Z.to_nat limit) (drop (Z.to_nat offset) all)) as Hpage.
  { unfold list_profiles. by apply py_slice_from_count. }
  assert (all ≡ₚ items (profiles (index st))) as Hperm
    by apply sort_desc_perm.
  assert (StronglySorted newest_first all) as Hsorted
    by apply sort_desc_sorted.
  split; [done|]. split; [done|]. split; [done|].
  split; [rewrite Hpage; by apply take_drop_sorted|].
  split; [rewrite Hpage, length_take; lia|].
  intros x Hx. rewrite Hpage in Hx.
  apply (subseteq_take _ _), (subseteq_drop _ _) in Hx.
  rewrite Hperm in Hx. split; [|done].
  assert (is_Some (get x.1 (profiles (index st)))) as [v Hv].
  { apply elem_of_keys. unfold keys, items in *.
    apply list_elem_of_fmap. by exists x. }
  by rewrite Hv.
Qed.

Lemma list_profiles_page_witness :
  0 <= 1 /\ 0 <= 1 /\
  let all := sort_desc updated_key (items (profiles (index Fixture.store2))) in
  all ≡ₚ items (profiles (index Fixture.store2)) /\
  StronglySorted newest_first all /\
  list_profiles Fixture.store2 1 1
  = take (Z.to_nat 1) (drop (Z.to_nat 1) all) /\
  StronglySorted newest_first (list_profiles Fixture.store2 1 1) /\
  Z.of_nat (length (list_profiles Fixture.store2 1 1)) <= 1 /\
  (forall x, x ∈ list_profiles Fixture.store2 1 1 ->
     get x.1 (profiles (index Fixture.store2)) <> None /\
     x ∈ items (profiles (index Fixture.store2))).
Proof.
  split; [lia|]. split; [lia|].
  apply (list_profiles_page Fixture.store2 1 1); lia.
Defined.

(** C9 as stated fails for a negative limit or offset, which a Python slice
    reads from the end of the list: with two profiles stored, a limit of -1
    answers one entry (more than -1), and an offset of -1 answers the last
    entry alone instead of skipping none. *)
Lemma list_profiles_negative_bounds :
  map fst (list_profiles Fixture.store2 10 0) = ["p2"; "p1"] /\
  map fst (list_profiles Fixture.store2 (-1) 0) = ["p2"] /\
  ~ (Z.of_nat (length (list_profiles Fixture.store2 (-1) 0)) <= -1) /\
  map fst (list_profiles Fixture.store2 10 (-1)) = ["p1"].
Proof. vm_compute. repeat split. intros H. by apply H. Qed.

(* ===================================================================== *)
(** * Further properties of the store *)
(* ===================================================================== *)

(** ** The index keeps its shape *)

Section DictShape.
Context {V : Type}.
Implicit Types (k : string) (v : V) (d : dict V).

Lemma keys_set_list k v d :
  keys (set k v d) = if mem k d then keys d else keys d ++ [k].
Proof.
  unfold mem, keys. induction d as [|[k' v'] d IH]; simpl; [done|].
  destruct (decide (k = k')) as [->|Hne]; simpl; [done|].
  rewrite IH. by destruct (get k d).
Qed.

Lemma mem_true_keys k d : mem k d = true <-> k ∈ keys d.
Proof.
  unfold mem. rewrite elem_of_keys.
  destruct (get k d); split; try done; try (by eauto); by intros [? ?].
Qed.

Lemma NoDup_keys_set k v d : NoDup (keys d) -> NoDup (keys (set k v d)).
Proof.
  intros Hnd. rewrite keys_set_list.
  destruct (mem k d) eqn:Hmem; [done|].
  apply NoDup_app. split; [done|]. split; [|apply NoDup_singleton].
  intros x Hx ->%list_elem_of_singleton.
  apply mem_true_keys in Hx. congruence.
Qed.

Lemma keys_del_list k d : keys (del k d) = filter (fun x => x <> k) (keys d).
Proof.
  unfold keys. induction d as [|[k' v'] d IH]; simpl; [done|].
  destruct (decide (k = k')) as [->|Hne].
  - rewrite filter_cons_False by (simpl; tauto). done.
  - rewrite filter_cons_True by (simpl; congruence). simpl. by rewrite IH.
Qed.

Lemma NoDup_keys_del k d : NoDup (keys d) -> NoDup (keys (del k d)).
Proof. intros Hnd. rewrite keys_del_list. by apply NoDup_filter. Qed.

Lemma Forall_set (P : string * V -> Prop) k v d :
  Forall P d -> P (k, v) -> Forall P (set k v d).
Proof.
  intros Hall Hkv. induction Hall as [|[k' v'] d Hx Hd IH]; simpl.
  - by constructor.
  - destruct (decide (k = k')); by constructor.
Qed.

Lemma Forall_del (P : string * V -> Prop) k d :
  Forall P d -> Forall P (del k d).
Proof.
  intros Hall. induction Hall as [|[k' v'] d Hx Hd IH]; simpl; [done|].
  destruct (decide (k = k')); [done|]. by constructor.
Qed.

Lemma Forall_get (P : string * V -> Prop) k v d :
  Forall P d -> get k d = Some v -> P (k, v).
Proof.
  intros Hall. induction Hall as [|[k' v'] d Hx Hd IH]; simpl; [done|].
  destruct (decide (k = k')) as [->|Hne]; [|done]. by intros [= ->].
Qed.

(** In a dict with distinct keys, deleting a key that is there makes the
    dict one entry shorter. *)
Lemma length_del k d :
  NoDup (keys d) -> is_Some (get k d) -> S (length (del k d)) = length d.
Proof.
  unfold keys. induction d as [|[k' v'] d IH]; simpl.
  - by intros _ [? ?].
  - intros [Hnotin Hnd]%NoDup_cons Hsome.
    destruct (decide (k = k')) as [->|Hne].
    + f_equal. clear IH Hsome Hnd.
      induction d as [|[k0 v0] d IH]; simpl; [done|].
      apply not_elem_of_cons in Hnotin as [Hne Hnotin]. simpl in *.
      rewrite decide_False by done. simpl. by rewrite IH.
    + simpl. f_equal. by apply IH.
Qed.

Lemma length_set k v d :
  length (set k v d) = if mem k d then length d else S (length d).
Proof.
  assert (forall d' : dict V, length d' = length (keys d')) as Hlen.
  { intros d'. unfold keys. by rewrite length_fmap. }
  rewrite (Hlen (set k v d)), keys_set_list, (Hlen d).
  destruct (mem k d); [done|]. rewrite length_app. simpl. lia.
Qed.

End DictShape.

Section BucketShape.
Implicit Types (m : dict (list string)) (k id : string) (b : list string).

Lemma remove_first_elem_of id id' b :
  id' ∈ remove_first id b -> id' ∈ b.
Proof.
  induction b as [|y b IH]; simpl; [done|].
  destruct (decide (id = y)) as [->|Hne].
  - intros Hin. by right.
  - intros [->|Hin]%elem_of_cons; [by left|]. right. by apply IH.
Qed.


Lemma remove_first_NoDup id b : NoDup b -> NoDup (remove_first id b).
Proof.
  induction 1 as [|y b Hnotin Hnd IH]; simpl; [constructor|].
  destruct (decide (id = y)); [done|].
  constructor; [|done]. intros Hin. by apply Hnotin, (remove_first_elem_of id).
Qed.

(** Once taken out of a bucket without repetitions, an id is gone. *)
Lemma remove_first_gone id b : NoDup b -> id ∉ remove_first id b.
Proof.
  induction 1 as [|y b Hnotin Hnd IH]; simpl; [by apply not_elem_of_nil|].
  destruct (decide (id = y)) as [->|Hne]; [done|].
  by apply not_elem_of_cons.
Qed.

Lemma bucket_add_ok k id m : buckets_ok m -> buckets_ok (bucket_add k id m).
Proof.
  intros [Hkeys Hall]. unfold bucket_add, mem, get_default.
  destruct (get k m) as [b|] eqn:Hb.
  - rewrite Hb. destruct (contains id b) eqn:Hin; [done|].
    split; [by apply NoDup_keys_set|].
    apply Forall_set; [done|]. simpl.
    destruct (Forall_get _ _ _ _ Hall Hb) as [_ Hnd]. simpl in Hnd.
    split; [by destruct b|].
    apply NoDup_app. split; [done|]. split; [|apply NoDup_singleton].
    intros x Hx ->%list_elem_of_singleton.
    apply elem_of_contains in Hx. congruence.
  - rewrite get_set_eq. simpl.
    replace (contains id []) with false
      by (symmetry; apply bool_decide_eq_false_2, not_elem_of_nil).
    rewrite set_set. split; [by apply NoDup_keys_set|].
    apply Forall_set; [done|]. simpl. split; [done|apply NoDup_singleton].
Qed.

Lemma bucket_discard_ok k id m :
  buckets_ok m -> buckets_ok (bucket_discard k id m).
Proof.
  intros [Hkeys Hall]. unfold bucket_discard.
  destruct (get k m) as [b|] eqn:Hb; [|done].
  destruct (Forall_get _ _ _ _ Hall Hb) as [_ Hnd]. simpl in Hnd.
  set (b1 := if contains id b then remove_first id b else b).
  assert (NoDup b1) as Hnd1.
  { unfold b1. destruct (contains id b); [by apply remove_first_NoDup|done]. }
  destruct b1 as [|y b1'] eqn:Hb1.
  - split; [by apply NoDup_keys_del | by apply Forall_del].
  - split; [by apply NoDup_keys_set|].
    apply Forall_set; [done|]. by split.
Qed.

Lemma add_tags_ok id (tgs : list string) : forall m,
  buckets_ok m ->
  buckets_ok (fold_left (fun m tag => bucket_add tag id m) tgs m).
Proof.
  induction tgs as [|t tgs IH]; intros m Hm; simpl; [done|].
  by apply IH, bucket_add_ok.
Qed.

Lemma discard_tags_ok id (tgs : list string) : forall m,
  buckets_ok m ->
  buckets_ok (fold_left (fun m tag => bucket_discard tag id m) tgs m).
Proof.
  induction tgs as [|t tgs IH]; intros m Hm; simpl; [done|].
  by apply IH, bucket_discard_ok.
Qed.

End BucketShape.

Section IndexShape.
Context `{DT : DateTime}.

Lemma index_ok_empty stamp : index_ok (empty_index stamp).
Proof.
  unfold index_ok, buckets_ok. simpl.
  repeat split; by constructor.
Qed.

Lemma index_ok_update (p : ProspectProfile) (ix : Index) :
  index_ok ix -> index_ok (_update_index p ix).
Proof.
  intros (Hsum & Hc & Hg & Hs & Hr & Ht). unfold index_ok. simpl.
  split; [by apply NoDup_keys_set|].
  repeat split; try (by apply bucket_add_ok); by apply add_tags_ok.
Qed.

Lemma index_ok_remove (id : string) (ix : Index) :
  index_ok ix -> index_ok (_remove_from_index id ix).
Proof.
  intros (Hsum & Hc & Hg & Hs & Hr & Ht). unfold _remove_from_index.
  destruct (get id (profiles ix)) as [s|]; [|done].
  unfold index_ok. simpl.
  split; [by apply NoDup_keys_del|].
  repeat split; try (by apply bucket_discard_ok); by apply discard_tags_ok.
Qed.

Lemma index_ok_apply_op (st : ProfileStorage) (o : op) :
  index_ok (index st) -> index_ok (index (apply_op st o)).
Proof.
  intros Hok. destruct o as [p t|id t]; simpl.
  - by apply (index_ok_update p) in Hok.
  - by apply (index_ok_remove id) in Hok.
Qed.

Lemma index_ok_run (stamp : string) (ops : list op) :
  index_ok (index (run (empty_storage stamp) ops)).
Proof.
  unfold run.
  assert (forall st, index_ok (index st) ->
                     index_ok (index (fold_left apply_op ops st))) as Hrun.
  { induction ops as [|o ops IH]; intros st Hok; simpl; [done|].
    by apply IH, index_ok_apply_op. }
  apply Hrun, index_ok_empty.
Qed.

(** X1. In every store reached from a fresh one by [save_profile] and
    [delete_profile], the summary map and the five secondary maps have
    distinct keys, no secondary map holds an empty bucket (a bucket that
    runs empty is deleted with its key), and no bucket holds an id twice. *)
Theorem reachable_index_ok (stamp : string) (ops : list op) :
  let ix := index (run (empty_storage stamp) ops) in
  NoDup (keys (profiles ix)) /\
  (forall m, m ∈ [by_company ix; by_goal ix; by_status ix;
                  by_relevance ix; by_tags ix] ->
     NoDup (keys m) /\
     forall key bucket, get key m = Some bucket ->
       bucket <> [] /\ NoDup bucket).
Proof.
  intros ix. destruct (index_ok_run stamp ops) as (Hsum & Hc & Hg & Hs & Hr & Ht).
  fold ix in Hsum, Hc, Hg, Hs, Hr, Ht.
  split; [done|]. intros m Hm.
  assert (buckets_ok m) as [Hkeys Hall].
  { repeat (apply elem_of_cons in Hm as [->|Hm]; [done|]).
    by apply elem_of_nil in Hm. }
  split; [done|]. intros key bucket Hget.
  exact (Forall_get _ _ _ _ Hall Hget).
Qed.

End IndexShape.

(** ** Every indexed profile is in the buckets of its own values *)

Section Visibility.
Implicit Types (m : dict (list string)) (k id : string) (b : list string).



End Visibility.

Section VisibilityInvariant.
Context `{DT : DateTime}.







End VisibilityInvariant.

(** ** Counting profiles *)

Section Counting.
Context `{DT : DateTime}.

Lemma counted_run (stamp : string) (ops : list op) :
  counted (run (empty_storage stamp) ops).
Proof.
  unfold run.
  assert (forall st, counted st -> counted (fold_left apply_op ops st))
    as Hrun.
  { induction ops as [|o ops IH]; intros st Hc; simpl; [done|].
    apply IH. by destruct o. }
  by apply Hrun.
Qed.



(** X4. Saving into a reached store raises [total_profiles] by one when
    the profile id has no file yet and leaves it as it is when the id is
    stored already. *)
Theorem save_profile_counts (stamp : string) (ops : list op)
    (p : ProspectProfile) (t : datetime) :
  let st := run (empty_storage stamp) ops in
  total_profiles (metadata (save_profile st p t).2)
  = match files st !! profile_id p with
    | Some _ => total_profiles (metadata st)
    | None => total_profiles (metadata st) + 1
    end.
Proof.
  intros st.
  pose proof (counted_run stamp ops) as Hc. fold st in Hc.
  pose proof (consistent_run ops _ (consistent_empty stamp)) as Hcons.
  fold st in Hcons.
  rewrite Hc. simpl. rewrite length_set.
  destruct (files st !! profile_id p) as [c|] eqn:Hfile.
  - assert (mem (profile_id p) (profiles (index st)) = true) as ->; [|done].
    apply mem_true_keys.
    assert (profile_id p ∈ stored_ids st) as Hin
      by (apply elem_of_dom; eauto).
    rewrite <- Hcons in Hin. by apply elem_of_list_to_set in Hin.
  - assert (mem (profile_id p) (profiles (index st)) = false) as ->.
    { unfold mem.
      by rewrite (consistent_no_file_no_summary st _ Hcons Hfile). }
    lia.
Qed.

End Counting.

(** ** Deleting a stored profile *)

Section BucketsAfterDiscard.
Implicit Types (m : dict (list string)) (k id : string) (b : list string).

(** [bucket_discard] puts nobody in. *)
Lemma bucket_discard_sub k k' id id' m :
  listed (bucket_discard k id m) k' id' -> listed m k' id'.
Proof.
  unfold bucket_discard, listed.
  destruct (get k m) as [b|] eqn:Hb; [|done].
  set (b1 := if contains id b then remove_first id b else b).
  assert (forall x, x ∈ b1 -> x ∈ b) as Hsub.
  { unfold b1. destruct (contains id b); [|done].
    intros x. apply remove_first_elem_of. }
  destruct (decide (k = k')) as [->|Hk].
  - destruct b1 as [|y b1'] eqn:Hb1.
    + rewrite get_del_eq. by intros (? & ? & _).
    + rewrite get_set_eq. intros (b' & [= <-] & Hin). by eauto.
  - destruct b1.
    + by rewrite get_del_ne.
    + by rewrite get_set_ne.
Qed.

(** After [bucket_discard] the id is out of the bucket of the key. *)
Lemma bucket_discard_gone k id m :
  buckets_ok m -> ~ listed (bucket_discard k id m) k id.
Proof.
  intros [_ Hall]. unfold bucket_discard, listed.
  destruct (get k m) as [b|] eqn:Hb; [|by rewrite Hb; intros (? & ? & _)].
  destruct (Forall_get _ _ _ _ Hall Hb) as [_ Hnd]. simpl in Hnd.
  set (b1 := if contains id b then remove_first id b else b).
  assert (id ∉ b1) as Hout.
  { unfold b1. destruct (contains id b) eqn:Hin.
    - by apply remove_first_gone.
    - intros Hin'%elem_of_contains. congruence. }
  destruct b1 as [|y b1'].
  - rewrite get_del_eq. by intros (? & ? & _).
  - rewrite get_set_eq. by intros (b' & [= <-] & Hin).
Qed.

Lemma discard_tags_sub id id' (tgs : list string) : forall m k',
  listed (fold_left (fun m tag => bucket_discard tag id m) tgs m) k' id' ->
  listed m k' id'.
Proof.
  induction tgs as [|t tgs IH]; intros m k' Hl; simpl in *; [done|].
  by eapply bucket_discard_sub, IH.
Qed.

Lemma discard_tags_gone id (tgs : list string) : forall m tag,
  buckets_ok m -> tag ∈ tgs ->
  ~ listed (fold_left (fun m tag => bucket_discard tag id m) tgs m) tag id.
Proof.
  induction tgs as [|t tgs IH]; intros m tag Hm Hin; simpl.
  - by apply elem_of_nil in Hin.
  - apply elem_of_cons in Hin as [->|Hin].
    + intros Hl%discard_tags_sub. by eapply bucket_discard_gone.
    + apply IH; [by apply bucket_discard_ok|done].
Qed.

End BucketsAfterDiscard.

Section DeleteStored.
Context `{DT : DateTime}.

(** X5. Deleting a profile that a reached store holds: the load of its id
    then answers [None] and prints nothing, the search without filters no
    longer has the id, [total_profiles] is one lower, and the id is out of
    the company, goal, status, relevance and tag buckets that its summary
    named. *)
Theorem delete_stored_profile (stamp : string) (ops : list op)
    (id : string) (t : datetime) (e : env) :
  let st := run (empty_storage stamp) ops in
  let st' := (delete_profile st id t).2 in
  is_Some (files st !! id) ->
  load_profile st' e id = Ok (None, []) /\
  (id ∉ search_profiles st' no_filters) /\
  total_profiles (metadata st') = total_profiles (metadata st) - 1 /\
  (forall s, get id (profiles (index st)) = Some s ->
     ~ listed (by_company (index st')) (s_discovering_company s) id /\
     ~ listed (by_goal (index st')) (s_company_goal s) id /\
     ~ listed (by_status (index st')) (s_status s) id /\
     ~ listed (by_relevance (index st')) (s_relevance_score s) id /\
     (forall tag, tag ∈ s_tags s -> ~ listed (by_tags (index st')) tag id)).
Proof.
  intros st st' Hfile.
  pose proof (counted_run stamp ops) as Hc. fold st in Hc.
  pose proof (consistent_run ops _ (consistent_empty stamp)) as Hcons.
  fold st in Hcons.
  destruct (index_ok_run stamp ops)
    as (Hnd & Hco & Hgo & Hsta & Hrel & Htag).
  fold st in Hnd, Hco, Hgo, Hsta, Hrel, Htag.
  assert (is_Some (get id (profiles (index st)))) as Hsum.
  { apply elem_of_keys.
    assert (id ∈ stored_ids st) as Hin by (by apply elem_of_dom).
    rewrite <- Hcons in Hin. by apply elem_of_list_to_set in Hin. }
  split; [|split; [|split]].
  - unfold load_profile, read_profile, st'. simpl.
    destruct Hfile as [c Hfile]. rewrite Hfile.
    by rewrite lookup_delete_eq.
  - rewrite search_no_filters.
    unfold st'. rewrite indexed_ids_delete. set_solver.
  - unfold st'. simpl. unfold _remove_from_index.
    destruct Hsum as [s Hs]. rewrite Hs. simpl.
    pose proof (length_del id (profiles (index st)) Hnd
                  (ex_intro _ s Hs)) as Hlen.
    rewrite Hc. lia.
  - intros s Hs. unfold st'. simpl. unfold _remove_from_index.
    rewrite Hs. simpl.
    repeat split; try (by apply bucket_discard_gone).
    intros tag Hin. by apply discard_tags_gone.
Qed.

End DeleteStored.

Lemma delete_stored_profile_witness :
  let ops :=
    [Save Fixture.acme "2024-03-01T09:00:01";
     Save Fixture.globex "2024-03-02T09:00:01"] in
  let st := run (empty_storage "2024-03-01T08:00:00") ops in
  let st' :=
    (delete_profile (DT := iso_text) st "p2" "2024-03-05T12:00:00").2 in
  is_Some (files st !! "p2") /\
  load_profile st' Fixture.e9 "p2" = Ok (None, []) /\
  ("p2" ∉ search_profiles st' no_filters) /\
  total_profiles (metadata st') = total_profiles (metadata st) - 1 /\
  (forall s, get "p2" (profiles (index st)) = Some s ->
     ~ listed (by_company (index st')) (s_discovering_company s) "p2" /\
     ~ listed (by_goal (index st')) (s_company_goal s) "p2" /\
     ~ listed (by_status (index st')) (s_status s) "p2" /\
     ~ listed (by_relevance (index st')) (s_relevance_score s) "p2" /\
     (forall tag, tag ∈ s_tags s -> ~ listed (by_tags (index st')) tag "p2")).
Proof.
  intros ops st st'.
  assert (is_Some (files st !! "p2")) as Hfile
    by (vm_compute; eexists; reflexivity).
  split; [exact Hfile|].
  exact (@delete_stored_profile iso_text "2024-03-01T08:00:00" ops "p2"
           "2024-03-05T12:00:00" Fixture.e9 Hfile).
Defined.

(** ** Searching with one filter, and with two on a reached store *)

Section SingleFilter.

Lemma elem_of_bucket_set m key id : id ∈ bucket_set m key <-> listed m key id.
Proof.
  unfold bucket_set, listed. destruct (get key m) as [b|].
  - unfold set_of. rewrite elem_of_list_to_set. split; [by eauto|].
    by intros (b' & [= <-] & Hin).
  - split; [by intros ?%not_elem_of_empty | by intros (? & ? & _)].
Qed.

Lemma search_only_company (st : ProfileStorage) (c : string) :
  search_profiles st (only_company c) = bucket_set (by_company (index st)) c.
Proof.
  unfold search_profiles.
  replace (filters_empty (only_company c)) with false by reflexivity.
  rewrite andb_false_r. unfold bucket_set. simpl.
  destruct (get c (by_company (index st))); [set_solver|done].
Qed.

Lemma search_only_goal (st : ProfileStorage) (g : string) :
  search_profiles st (only_goal g) = bucket_set (by_goal (index st)) g.
Proof.
  unfold search_profiles.
  replace (filters_empty (only_goal g)) with false by reflexivity.
  rewrite andb_false_r. unfold by_key, bucket_set. simpl.
  destruct (get g (by_goal (index st))); [apply narrow_first|done].
Qed.

Lemma search_only_relevance (st : ProfileStorage) (r : string) :
  search_profiles st (only_relevance r)
  = bucket_set (by_relevance (index st)) r.
Proof.
  unfold search_profiles.
  replace (filters_empty (only_relevance r)) with false by reflexivity.
  rewrite andb_false_r. unfold by_key, bucket_set. simpl.
  destruct (get r (by_relevance (index st))); [apply narrow_first|done].
Qed.

Lemma search_only_status_set (st : ProfileStorage) (s : string) :
  search_profiles st (only_status s) = bucket_set (by_status (index st)) s.
Proof. apply search_only_status. Qed.

(** The union that the loop over the tags builds. *)
Lemma elem_of_tag_union m (tgs : list string) : forall (acc : gset string) id,
  id ∈ fold_left
         (fun acc tag =>
            match get tag m with
            | Some bucket => acc ∪ set_of bucket
            | None => acc
            end) tgs acc
  <-> id ∈ acc \/ exists tag, tag ∈ tgs /\ listed m tag id.
Proof.
  induction tgs as [|t tgs IH]; intros acc id; simpl.
  - split; [by left|]. intros [?|(tag & Hin & _)]; [done|].
    by apply elem_of_nil in Hin.
  - rewrite IH. split.
    + intros [Hacc|(tag & Hin & Hl)].
      * destruct (get t m) as [b|] eqn:Hb; [|by left].
        apply elem_of_union in Hacc as [Hacc|Hb']; [by left|].
        right. exists t. split; [by left|].
        exists b. split; [done|]. by apply elem_of_list_to_set in Hb'.
      * right. exists tag. split; [by right|done].
    + intros [Hacc|(tag & Hin & Hl)].
      * left. destruct (get t m); [|done]. by apply elem_of_union_l.
      * apply elem_of_cons in Hin as [->|Hin].
        -- left. destruct Hl as (b & -> & Hb).
           apply elem_of_union_r. by apply elem_of_list_to_set.
        -- right. by exists tag.
Qed.

Lemma elem_of_search_only_tags (st : ProfileStorage) (a : tags_arg)
    (id : string) :
  id ∈ search_profiles st (only_tags a)
  <-> exists tag, tag ∈ tag_list a /\ listed (by_tags (index st)) tag id.
Proof.
  unfold search_profiles.
  replace (filters_empty (only_tags a)) with false by reflexivity.
  rewrite andb_false_r. simpl. rewrite narrow_first.
  rewrite elem_of_tag_union. split; [|by right].
  intros [Hempty|H]; [by apply not_elem_of_empty in Hempty|done].
Qed.

Lemma prefix_refl (s : string) : String.prefix s s = true.
Proof.
  induction s as [|c s IH]; simpl; [done|].
  by destruct (ascii_dec c c).
Qed.

Lemma is_substring_refl (s : string) : is_substring s s = true.
Proof.
  pose proof (prefix_refl s) as Hp.
  destruct s; cbn [is_substring]; by rewrite Hp.
Qed.

Lemma get_Some_elem_of {V} (k : string) (v : V) (d : dict V) :
  get k d = Some v -> (k, v) ∈ d.
Proof.
  induction d as [|[k' v'] d IH]; simpl; [done|].
  destruct (decide (k = k')) as [->|Hne].
  - intros [= ->]. by left.
  - intros Hget. right. by apply IH.
Qed.

Lemma elem_of_search_only_name (st : ProfileStorage) (nm id : string) :
  id ∈ search_profiles st (only_name nm)
  <-> exists s,
        (id, s) ∈ items (profiles (index st)) /\
        is_substring (lower nm) (lower (s_name s)) = true.
Proof.
  unfold search_profiles.
  replace (filters_empty (only_name nm)) with false by reflexivity.
  rewrite andb_false_r. simpl. rewrite narrow_first.
  unfold set_of. rewrite elem_of_list_to_set, list_elem_of_fmap.
  split.
  - intros ([id' s] & -> & Hin). apply list_elem_of_filter in Hin.
    exists s. simpl in *. destruct Hin as [Hmatch Hin].
    split; [done|]. by destruct (is_substring _ _).
  - intros (s & Hin & Hmatch). exists (id, s). split; [done|].
    apply list_elem_of_filter. simpl. by rewrite Hmatch.
Qed.

(** X6. A search by tags alone answers the union of the buckets of the
    tags given: an id is found exactly when one of the tags has it in its
    bucket. A single tag given as a string counts as a list of one. *)
Theorem search_by_tags_is_union (st : ProfileStorage) (a : tags_arg)
    (id : string) :
  id ∈ search_profiles st (only_tags a)
  <-> exists tag, tag ∈ tag_list a /\ listed (by_tags (index st)) tag id.
Proof. apply elem_of_search_only_tags. Qed.


End SingleFilter.

Section FoundAfterSave.
Context `{DT : DateTime}.

(** X8. Whatever the store, a profile that was just saved is found by a
    search on each of its own values alone: its company, its goal, its
    status, its relevance, each of its tags and its name; and by the search
    without filters. *)
Theorem saved_profile_is_found (st : ProfileStorage) (p : ProspectProfile)
    (t : datetime) :
  let st' := (save_profile st p t).2 in
  let id := profile_id p in
  id ∈ search_profiles st' no_filters /\
  id ∈ search_profiles st'
         (only_company (discovering_company (discovery_metadata p))) /\
  id ∈ search_profiles st'
         (only_goal (company_goal (discovery_metadata p))) /\
  id ∈ search_profiles st' (only_status (ProspectStatus_value (status p))) /\
  id ∈ search_profiles st'
         (only_relevance
            (RelevanceScore_value (relevance_score (goal_alignment p)))) /\
  (forall tag, tag ∈ tags p ->
     id ∈ search_profiles st' (only_tags (OneTag tag))) /\
  id ∈ search_profiles st' (only_name (name p)).
Proof.
  intros st' id.
  split; [|split; [|split; [|split; [|split; [|split]]]]].
  - rewrite search_no_filters. unfold st', id.
    rewrite indexed_ids_save. set_solver.
  - rewrite search_only_company. apply elem_of_bucket_set, bucket_add_has.
  - rewrite search_only_goal. apply elem_of_bucket_set, bucket_add_has.
  - rewrite search_only_status_set.
    apply elem_of_bucket_set, bucket_add_has.
  - rewrite search_only_relevance.
    apply elem_of_bucket_set, bucket_add_has.
  - intros tag Htag. apply elem_of_search_only_tags.
    exists tag. split; [by left|]. by apply add_tags_has.
  - apply elem_of_search_only_name. eexists. split.
    + apply get_Some_elem_of. unfold st'. simpl. apply get_set_eq.
    + simpl. apply is_substring_refl.
Qed.

(** X9. On a store reached from a fresh one, a search by status and
    relevance whose two keys both have a bucket answers the intersection of
    the two buckets. *)
Theorem search_two_present_keys_intersects (stamp : string) (ops : list op)
    (s r : string) (bs br : list string) :
  let st := run (empty_storage stamp) ops in
  get s (by_status (index st)) = Some bs ->
  get r (by_relevance (index st)) = Some br ->
  search_profiles st (status_and_relevance s r) = set_of bs ∩ set_of br.
Proof.
  intros st Hs Hr. rewrite search_status_and_relevance, Hs, Hr.
  destruct (index_ok_run stamp ops) as (_ & _ & _ & [_ Hall] & _).
  fold st in Hall.
  destruct (Forall_get _ _ _ _ Hall Hs) as [Hne _]. simpl in Hne.
  assert (nonempty (set_of bs) = true) as ->; [|done].
  unfold nonempty. apply bool_decide_eq_true_2. intros Hempty.
  destruct bs as [|x bs]; [done|].
  assert (x ∈ (∅ : gset string)) as Hx;
    [|by apply not_elem_of_empty in Hx].
  rewrite <- Hempty. unfold set_of. apply elem_of_list_to_set. by left.
Qed.

End FoundAfterSave.

Lemma search_two_present_keys_intersects_witness :
  let ops :=
    [Save Fixture.acme "2024-03-01T09:00:01";
     Save Fixture.globex "2024-03-02T09:00:01"] in
  let st := run (empty_storage "2024-03-01T08:00:00") ops in
  get "discovered" (by_status (index st)) = Some ["p1"; "p2"] /\
  get "High" (by_relevance (index st)) = Some ["p2"] /\
  search_profiles st (status_and_relevance "discovered" "High")
  = set_of ["p1"; "p2"] ∩ set_of ["p2"].
Proof.
  intros ops st.
  assert (get "discovered" (by_status (index st)) = Some ["p1"; "p2"]) as Hs
    by (vm_compute; reflexivity).
  assert (get "High" (by_relevance (index st)) = Some ["p2"]) as Hr
    by (vm_compute; reflexivity).
  split; [exact Hs|]. split; [exact Hr|].
  exact (@search_two_present_keys_intersects iso_text "2024-03-01T08:00:00"
           ops "discovered" "High" ["p1"; "p2"] ["p2"] Hs Hr).
Defined.

(** ** Listing: pages *)

Section Pages.
Context {A : Type}.
Implicit Types (l : list A).

Lemma take_add_drop l (a b o : nat) :
  take a (drop o l) ++ take b (drop (o + a) l) = take (a + b) (drop o l).
Proof.
  rewrite <- (drop_drop l a o) by lia.
  generalize (drop o l). clear l. intros l.
  revert l. induction a as [|a IH]; intros l; simpl.
  - by rewrite drop_0.
  - destruct l as [|x l]; simpl.
    + by rewrite !take_nil.
    + by rewrite IH.
Qed.

End Pages.


Lemma list_profiles_take_drop (st : ProfileStorage) (limit offset : Z) :
  0 <= limit -> 0 <= offset ->
  list_profiles st limit offset
  = take (Z.to_nat limit)
      (drop (Z.to_nat offset)
         (sort_desc updated_key (items (profiles (index st))))).
Proof. intros Hlim Hoff. unfold list_profiles. by apply py_slice_from_count. Qed.

(** X11. Two pages that follow each other make one longer page: for
    limits and an offset that are not negative, the entries from [offset]
    on, [a] of them, followed by the entries from [offset + a] on, [b] of
    them, are the [a + b] entries from [offset] on. *)
Theorem list_profiles_pages_concatenate (st : ProfileStorage)
    (a b offset : Z) :
  0 <= a -> 0 <= b -> 0 <= offset ->
  list_profiles st a offset ++ list_profiles st b (offset + a)
  = list_profiles st (a + b) offset.
Proof.
  intros Ha Hb Hoff. rewrite !list_profiles_take_drop by lia.
  rewrite Z2Nat.inj_add by lia. rewrite (Z2Nat.inj_add a b) by lia.
  apply take_add_drop.
Qed.

Lemma list_profiles_pages_concatenate_witness :
  0 <= 1 /\ 0 <= 1 /\ 0 <= 0 /\
  list_profiles Fixture.store2 1 0 ++ list_profiles Fixture.store2 1 (0 + 1)
  = list_profiles Fixture.store2 (1 + 1) 0.
Proof.
  split; [lia|]. split; [lia|]. split; [lia|].
  apply (list_profiles_pages_concatenate Fixture.store2 1 1 0); lia.
Defined.

(** X12. A page that is long enough holds every entry of the summary map,
    each once; a page that starts at or after the number of entries is
    empty. *)
Theorem list_profiles_whole_and_beyond (st : ProfileStorage)
    (limit offset : Z) :
  Z.of_nat (length (profiles (index st))) <= limit ->
  Z.of_nat (length (profiles (index st))) <= offset ->
  list_profiles st limit 0 ≡ₚ items (profiles (index st)) /\
  list_profiles st limit offset = [].
Proof.
  intros Hlim Hoff.
  pose proof (sort_desc_perm updated_key (items (profiles (index st))))
    as Hperm.
  assert (length (sort_desc updated_key (items (profiles (index st))))
          = length (profiles (index st))) as Hlen
    by (by rewrite Hperm).
  rewrite !list_profiles_take_drop by lia. split.
  - simpl. rewrite drop_0, take_ge by lia. exact Hperm.
  - rewrite drop_ge by lia. apply take_nil.
Qed.

Lemma list_profiles_whole_and_beyond_witness :
  Z.of_nat (length (profiles (index Fixture.store2))) <= 5 /\
  Z.of_nat (length (profiles (index Fixture.store2))) <= 2 /\
  list_profiles Fixture.store2 5 0
    ≡ₚ items (profiles (index Fixture.store2)) /\
  list_profiles Fixture.store2 5 2 = [].
Proof.
  assert (Z.of_nat (length (profiles (index Fixture.store2))) <= 5) as H5
    by (vm_compute; discriminate).
  assert (Z.of_nat (length (profiles (index Fixture.store2))) <= 2) as H2
    by (vm_compute; discriminate).
  split; [exact H5|]. split; [exact H2|].
  exact (list_profiles_whole_and_beyond Fixture.store2 5 2 H5 H2).
Defined.

(** X13. The pages of [get_profiles]: with a limit above zero and
    [total] entries in the summary map, page [page] (counted from 1) has an
    entry exactly when [page] is at most the page count that the view
    reports, [(total + limit - 1) // limit]. *)
Theorem reported_pages_are_the_nonempty_pages (st : ProfileStorage)
    (page limit : Z) :
  0 < limit -> 1 <= page ->
  let total := Z.of_nat (length (profiles (index st))) in
  list_profiles st limit (page_offset page limit) <> []
  <-> page <= page_count total limit.
Proof.
  intros Hlim Hpage total. unfold page_offset, page_count.
  rewrite list_profiles_take_drop by nia.
  pose proof (sort_desc_perm updated_key (items (profiles (index st))))
    as Hperm.
  assert (length (sort_desc updated_key (items (profiles (index st))))
          = Z.to_nat total) as Hlen.
  { rewrite Hperm. unfold total, items. lia. }
  set (all := sort_desc updated_key (items (profiles (index st)))) in *.
  assert (take (Z.to_nat limit) (drop (Z.to_nat ((page - 1) * limit)) all)
          <> []
          <-> (page - 1) * limit < total) as ->.
  { assert (0 <= (page - 1) * limit) as Hoff by nia.
    assert (0 <= total) as Htot by (unfold total; lia).
    rewrite <- length_zero_iff_nil, length_take, length_drop, Hlen.
    generalize dependent ((page - 1) * limit). intros off Hoff. lia. }
  assert (0 <= total) as Htot by (unfold total; lia).
  split.
  - intros Hlt. apply Z.div_le_lower_bound; [lia|]. nia.
  - intros Hle.
    pose proof (Z.mul_div_le (total + limit - 1) limit Hlim) as Hdiv.
    nia.
Qed.

Lemma reported_pages_are_the_nonempty_pages_witness :
  0 < 1 /\ 1 <= 2 /\
  let total := Z.of_nat (length (profiles (index Fixture.store2))) in
  (list_profiles Fixture.store2 1 (page_offset 2 1) <> []
   <-> 2 <= page_count total 1).
Proof.
  split; [lia|]. split; [lia|].
  apply (reported_pages_are_the_nonempty_pages Fixture.store2 2 1); lia.
Defined.

(* ===================================================================== *)
(** * Further properties of the profile *)
(* ===================================================================== *)

(** ** Sequences of mutations *)

Section Mutations.
Context `{DT : DateTime}.

Lemma mutate_step (p : ProspectProfile) (m : mutation) :
  version (mutate p m) = version p + (if changes p m then 1 else 0) /\
  same_identity p (mutate p m) /\
  interactions p `prefix_of` interactions (mutate p m) /\
  notes p `prefix_of` notes (mutate p m) /\
  tags p `prefix_of` tags (mutate p m) /\
  (NoDup (tags p) -> NoDup (tags (mutate p m))).
Proof.
  assert (forall (l : list string) x, NoDup l -> x ∉ l -> NoDup (l ++ [x]))
    as Hsnoc.
  { intros l x Hnd Hx. apply NoDup_app. split; [done|].
    split; [|apply NoDup_singleton].
    by intros y Hy ->%list_elem_of_singleton. }
  destruct m as [ty c o ts tu|n c ts tu|s tu|tag tu]; simpl.
  - split; [done|]. split; [done|]. split; [by apply prefix_app_r|].
    done.
  - split; [done|]. split; [done|]. split; [done|].
    split; [by apply prefix_app_r|]. done.
  - split; [done|]. done.
  - unfold add_tag, contains.
    destruct (bool_decide (tag ∈ tags p)) eqn:Hin; simpl.
    + split; [lia|]. done.
    + apply bool_decide_eq_false in Hin.
      split; [done|]. split; [done|]. split; [done|]. split; [done|].
      split; [by apply prefix_app_r|]. intros Hnd. by apply Hsnoc.
Qed.

Lemma mutate_all_steps (ms : list mutation) : forall p,
  version (mutate_all p ms) = version p + Z.of_nat (changing_calls p ms) /\
  same_identity p (mutate_all p ms) /\
  interactions p `prefix_of` interactions (mutate_all p ms) /\
  notes p `prefix_of` notes (mutate_all p ms) /\
  tags p `prefix_of` tags (mutate_all p ms) /\
  (NoDup (tags p) -> NoDup (tags (mutate_all p ms))).
Proof.
  unfold mutate_all. induction ms as [|m ms IH]; intros p; simpl.
  - repeat split; try done. lia.
  - destruct (mutate_step p m)
      as (Hv & (Hi1 & Hi2 & Hi3 & Hi4 & Hi5 & Hi6 & Hi7) & Hin & Hn & Ht & Hd).
    destruct (IH (mutate p m))
      as (Hv' & (Hj1 & Hj2 & Hj3 & Hj4 & Hj5 & Hj6 & Hj7) & Hin' & Hn' & Ht'
          & Hd').
    split; [|split; [|split; [|split; [|split]]]].
    + rewrite Hv', Hv. destruct (changes p m); lia.
    + repeat split; congruence.
    + by etrans.
    + by etrans.
    + by etrans.
    + intros Hnd. by apply Hd', Hd.
Qed.

(** X14. After any sequence of [add_interaction], [add_note],
    [update_status] and [add_tag] calls on a profile, its version has gone
    up by the number of calls that changed it (every call but an [add_tag]
    of a tag already there), never down; its id, creation time, name, type,
    contact, goal alignment and discovery data are as before; and its
    interactions, notes and tags have only grown at the end. *)
Theorem mutations_bump_and_append (p : ProspectProfile)
    (ms : list mutation) :
  let q := mutate_all p ms in
  version q = version p + Z.of_nat (changing_calls p ms) /\
  version p <= version q <= version p + Z.of_nat (length ms) /\
  same_identity p q /\
  interactions p `prefix_of` interactions q /\
  notes p `prefix_of` notes q /\
  tags p `prefix_of` tags q.
Proof.
  intros q. destruct (mutate_all_steps ms p) as (Hv & Hid & Hi & Hn & Ht & _).
  fold q in Hv, Hid, Hi, Hn, Ht.
  assert (changing_calls p ms <= length ms)%nat as Hle.
  { clear. revert p. induction ms as [|m ms IH]; intros p; simpl; [lia|].
    specialize (IH (mutate p m)). destruct (changes p m); lia. }
  split; [exact Hv|]. split; [lia|]. split; [exact Hid|].
  split; [exact Hi|]. split; [exact Hn|exact Ht].
Qed.

(** X15. A tag list without repetitions stays without repetitions under
    any sequence of mutator calls: [add_tag] appends a tag only when it is
    not there. *)
Theorem mutations_keep_tags_distinct (p : ProspectProfile)
    (ms : list mutation) :
  NoDup (tags p) -> NoDup (tags (mutate_all p ms)).
Proof. intros Hnd. by apply (mutate_all_steps ms p). Qed.

End Mutations.

Lemma mutations_keep_tags_distinct_witness :
  NoDup (tags Fixture.globex) /\
  NoDup
    (tags
       (mutate_all Fixture.globex
          [@Add_tag iso_text "x" "2024-03-04T11:00:00";
           @Add_tag iso_text "y" "2024-03-04T12:00:00";
           @Add_tag iso_text "y" "2024-03-04T13:00:00"])).
Proof.
  assert (NoDup (tags Fixture.globex)) as Hnd.
  { simpl. apply NoDup_singleton. }
  split; [exact Hnd|].
  exact (@mutations_keep_tags_distinct iso_text Fixture.globex _ Hnd).
Defined.

(** ** Reading documents: missing keys, further keys, bad enum values *)

Section EnumValues.

Lemma enum_of_json_not_a_value {E} (value : E -> string) (members : list E)
    (s : string) :
  not_a_value value members s ->
  enum_of_json value members (JStr s) = Raise ValueError.
Proof. unfold not_a_value, enum_of_json. by intros ->. Qed.

(** X16. Each enum is read back from exactly the values it writes: a
    string is accepted as a member if and only if it is that member's
    value, for the prospect type, the relevance score and the status; any
    other string raises [ValueError]. *)
Theorem enum_of_json_iff_value (s : string) :
  (forall m, ProspectType_of_json (JStr s) = Ok m
             <-> ProspectType_value m = s) /\
  (forall m, RelevanceScore_of_json (JStr s) = Ok m
             <-> RelevanceScore_value m = s) /\
  (forall m, ProspectStatus_of_json (JStr s) = Ok m
             <-> ProspectStatus_value m = s) /\
  (not_a_value ProspectStatus_value ProspectStatus_members s ->
   ProspectStatus_of_json (JStr s) = Raise ValueError).
Proof.
  split; [|split; [|split]].
  - intros m. split; [|intros <-; apply ProspectType_of_value].
    unfold ProspectType_of_json, enum_of_json, find_by_value. simpl.
    repeat (case_bool_decide; [by intros [= <-]|]). done.
  - intros m. split; [|intros <-; apply RelevanceScore_of_value].
    unfold RelevanceScore_of_json, enum_of_json, find_by_value. simpl.
    repeat (case_bool_decide; [by intros [= <-]|]). done.
  - intros m. split; [|intros <-; apply ProspectStatus_of_value].
    unfold ProspectStatus_of_json, enum_of_json, find_by_value. simpl.
    repeat (case_bool_decide; [by intros [= <-]|]). done.
  - apply enum_of_json_not_a_value.
Qed.

End EnumValues.

Lemma enum_of_json_iff_value_witness :
  not_a_value ProspectStatus_value ProspectStatus_members "unknown" /\
  (forall m, ProspectType_of_json (JStr "unknown") = Ok m
             <-> ProspectType_value m = "unknown") /\
  (forall m, RelevanceScore_of_json (JStr "unknown") = Ok m
             <-> RelevanceScore_value m = "unknown") /\
  (forall m, ProspectStatus_of_json (JStr "unknown") = Ok m
             <-> ProspectStatus_value m = "unknown") /\
  ProspectStatus_of_json (JStr "unknown") = Raise ValueError.
Proof.
  assert (not_a_value ProspectStatus_value ProspectStatus_members "unknown")
    as Hbad by reflexivity.
  split; [exact Hbad|].
  destruct (enum_of_json_iff_value "unknown") as (Ht & Hr & Hs & Hraise).
  split; [exact Ht|]. split; [exact Hr|]. split; [exact Hs|].
  exact (Hraise Hbad).
Defined.

Section Decoding.
Context `{DT : DateTime} {iso : IsoRoundTrip DT}.

(** X17. A document that has none of the keys [from_dict] looks for, the
    empty object among them, is read as the profile the constructor makes:
    every field takes its default, the id is a fresh uuid and the three
    dates are the clock readings. *)
Theorem from_dict_missing_keys_default (e : env)
    (o : list (string * json)) :
  Forall (fun key => get key o = None) top_level_keys ->
  from_dict e (JObj o) = Ok (ProspectProfile_default e).
Proof.
  intros Hall. unfold top_level_keys in Hall.
  repeat (apply Forall_cons in Hall as [? Hall]).
  unfold from_dict, jget, get_default.
  cbn [as_obj mbind result_bind].
  repeat match goal with
         | H : get _ o = None |- _ => rewrite H; clear H
         end.
  cbv - [datetime_of_json isoformat].
  rewrite !datetime_of_isoformat. reflexivity.
Qed.

(** X18. Keys that [from_dict] does not look for are passed over: a
    document written by [to_dict], with any further keys after its own,
    is read back as the profile. *)
Theorem from_dict_ignores_further_keys (e : env) (p : ProspectProfile)
    (more : list (string * json)) :
  exists o,
    to_dict p = JObj o /\ from_dict e (JObj (o ++ more)) = Ok p.
Proof.
  eexists. split; [reflexivity|].
  destruct p as [? ? ? ? ? ? ? ? [] [] [] ? ? ? ? ? ? ? ? ? ? ? ? ? ? ? ?].
  cbv - [json_of_strs json_of_str_dict json_of_opt_str
         as_str_list as_str_dict as_opt_str
         ProspectType_of_json RelevanceScore_of_json ProspectStatus_of_json
         ProspectType_value RelevanceScore_value ProspectStatus_value
         datetime_of_json isoformat].
  rewrite !strs_of_json_of_strs, !str_dict_of_json, !opt_str_of_json,
    ProspectType_of_value, RelevanceScore_of_value, ProspectStatus_of_value,
    !datetime_of_isoformat.
  reflexivity.
Qed.

(** X19. A document written by [to_dict] whose status was then replaced
    by a string that is the value of no status is not read: [from_dict]
    raises [ValueError], and [load_profile] on a store that holds the
    document prints that error and answers [None]. *)
Theorem from_dict_rejects_unknown_status (st : ProfileStorage) (e : env)
    (p : ProspectProfile) (s id : string) (o : list (string * json)) :
  not_a_value ProspectStatus_value ProspectStatus_members s ->
  to_dict p = JObj o ->
  files st !! id = Some (Doc (JObj (set "status" (JStr s) o))) ->
  from_dict e (JObj (set "status" (JStr s) o)) = Raise ValueError /\
  load_profile st e id = Ok (None, [Error_loading_profile id ValueError]).
Proof.
  intros Hbad Hdoc Hfile.
  assert (from_dict e (JObj (set "status" (JStr s) o)) = Raise ValueError)
    as Hraise.
  { injection Hdoc as <-.
    pose proof (enum_of_json_not_a_value _ _ s Hbad) as Hs.
    fold ProspectStatus_of_json in Hs.
    destruct p as [? ? ? ? ? ? ? ? [] [] [] ? ? ? ? ? ? ? ? ? ? ? ? ? ? ? ?].
    cbv - [json_of_strs json_of_str_dict json_of_opt_str
           as_str_list as_str_dict as_opt_str
           ProspectType_of_json RelevanceScore_of_json ProspectStatus_of_json
           ProspectType_value RelevanceScore_value ProspectStatus_value
           datetime_of_json isoformat].
    rewrite !strs_of_json_of_strs, !str_dict_of_json, !opt_str_of_json,
      ProspectType_of_value, RelevanceScore_of_value, Hs,
      !datetime_of_isoformat.
    reflexivity. }
  split; [exact Hraise|].
  unfold load_profile, read_profile. rewrite Hfile, Hraise. reflexivity.
Qed.

End Decoding.

Lemma from_dict_missing_keys_default_witness :
  IsoRoundTrip iso_text /\
  Forall (fun key => get key [("comment", JStr "kept by hand")] = None)
    top_level_keys /\
  from_dict Fixture.e9 (JObj [("comment", JStr "kept by hand")])
  = Ok (ProspectProfile_default Fixture.e9).
Proof.
  assert (Forall (fun key => get key [("comment", JStr "kept by hand")] = None)
            top_level_keys) as Hnone.
  { unfold top_level_keys. repeat constructor. }
  split; [intros d; reflexivity|]. split; [exact Hnone|].
  exact (@from_dict_missing_keys_default iso_text (fun d => eq_refl)
           Fixture.e9 _ Hnone).
Defined.

Lemma from_dict_ignores_further_keys_witness :
  IsoRoundTrip iso_text /\
  exists o,
    to_dict Fixture.acme = JObj o /\
    from_dict Fixture.e9 (JObj (o ++ [("comment", JNull)])) = Ok Fixture.acme.
Proof.
  split; [intros d; reflexivity|].
  exact (@from_dict_ignores_further_keys iso_text (fun d => eq_refl)
           Fixture.e9 Fixture.acme [("comment", JNull)]).
Defined.

Lemma from_dict_rejects_unknown_status_witness :
  not_a_value ProspectStatus_value ProspectStatus_members "unknown" /\
  to_dict Fixture.acme = JObj MoreFixture.acme_fields /\
  files MoreFixture.store_bad_status !! "p1"
  = Some (Doc (JObj (set "status" (JStr "unknown") MoreFixture.acme_fields)))
  /\
  from_dict Fixture.e9
    (JObj (set "status" (JStr "unknown") MoreFixture.acme_fields))
  = Raise ValueError /\
  load_profile MoreFixture.store_bad_status Fixture.e9 "p1"
  = Ok (None, [Error_loading_profile "p1" ValueError]).
Proof.
  assert (not_a_value ProspectStatus_value ProspectStatus_members "unknown")
    as Hbad by reflexivity.
  assert (to_dict Fixture.acme = JObj MoreFixture.acme_fields) as Hdoc
    by reflexivity.
  assert (files MoreFixture.store_bad_status !! "p1"
          = Some (Doc (JObj (set "status" (JStr "unknown")
                               MoreFixture.acme_fields)))) as Hfile
    by (vm_compute; reflexivity).
  split; [exact Hbad|]. split; [exact Hdoc|]. split; [exact Hfile|].
  exact (@from_dict_rejects_unknown_status iso_text (fun d => eq_refl)
           MoreFixture.store_bad_status Fixture.e9 Fixture.acme "unknown"
           "p1" MoreFixture.acme_fields Hbad Hdoc Hfile).
Defined.

(* ===================================================================== *)
(** * Further properties of the manager *)
(* ===================================================================== *)

(** ** Mutators through the manager *)

Section ManagerCalls.
Context `{DT : DateTime}.

Lemma load_change_save_absent (st : ProfileStorage) (e : env) (id : string)
    (change : ProspectProfile -> ProspectProfile) (t_save : datetime) :
  returned (load_profile st e id) = Some None ->
  ProfileManager.load_change_save st e id change t_save = Ok (false, st).
Proof.
  unfold ProfileManager.load_change_save, returned.
  destruct (load_profile st e id) as [[[p|] l]| |]; simpl; try done.
Qed.

(** X20. When [load_profile] answers [None] for an id, because there is
    no file or because the file cannot be read, each of the four mutators
    of the manager answers [False] and the store stays as it is. *)
Theorem manager_call_without_profile (st : ProfileStorage) (e : env)
    (id : string) (m : mutation) (t_save : datetime) :
  returned (load_profile st e id) = Some None ->
  manager_call st e id m t_save = Ok (false, st).
Proof.
  intros Hnone. destruct m; simpl; by apply load_change_save_absent.
Qed.

Context {iso : IsoRoundTrip DT}.

(** X21. On a stored profile each mutator of the manager answers [True]
    and stores what the mutator of the profile computes: the profile then
    loaded from the store is the mutated one, so the stored version is one
    higher, or the same after an [add_tag] of a tag already there. *)
Theorem manager_call_commits (st : ProfileStorage) (e e' : env)
    (p : ProspectProfile) (m : mutation) (t_save : datetime) :
  files st !! profile_id p = Some (Doc (to_dict p)) ->
  exists st',
    manager_call st e (profile_id p) m t_save = Ok (true, st') /\
    load_profile st' e' (profile_id p) = Ok (Some (mutate p m), []) /\
    version (mutate p m) = version p + (if changes p m then 1 else 0).
Proof.
  intros Hfile.
  destruct (mutate_step p m) as (Hv & (Hid & _) & _).
  exists (save_profile st (mutate p m) t_save).2.
  split; [|split; [|exact Hv]].
  - destruct m; simpl;
      unfold ProfileManager.add_interaction, ProfileManager.add_note,
        ProfileManager.update_status, ProfileManager.add_tag;
      by rewrite (load_change_save_stored st e p _ _ _ Hfile).
  - apply load_stored. simpl. by rewrite <- Hid, lookup_insert_eq.
Qed.

End ManagerCalls.

Lemma manager_call_without_profile_witness :
  returned (load_profile Fixture.store_corrupt Fixture.e9 "bad") = Some None
  /\
  manager_call Fixture.store_corrupt Fixture.e9 "bad"
    (@Add_tag iso_text "x" "2024-03-04T11:00:00") "2024-03-04T11:00:01"
  = Ok (false, Fixture.store_corrupt).
Proof.
  assert (returned (load_profile Fixture.store_corrupt Fixture.e9 "bad")
          = Some None) as Hnone by (vm_compute; reflexivity).
  split; [exact Hnone|].
  exact (@manager_call_without_profile iso_text Fixture.store_corrupt
           Fixture.e9 "bad" _ "2024-03-04T11:00:01" Hnone).
Defined.

Lemma manager_call_commits_witness :
  IsoRoundTrip iso_text /\
  files Fixture.store1 !! "p1" = Some (Doc (to_dict Fixture.acme)) /\
  exists st',
    manager_call Fixture.store1 Fixture.e9 "p1"
      (@Update_status iso_text QUALIFIED "2024-03-04T11:00:00")
      "2024-03-04T11:00:01" = Ok (true, st') /\
    load_profile st' Fixture.e9 "p1"
    = Ok (Some (mutate Fixture.acme
                  (@Update_status iso_text QUALIFIED "2024-03-04T11:00:00")),
          []) /\
    version (mutate Fixture.acme
               (@Update_status iso_text QUALIFIED "2024-03-04T11:00:00"))
    = version Fixture.acme + 1.
Proof.
  assert (files Fixture.store1 !! "p1" = Some (Doc (to_dict Fixture.acme)))
    as Hfile by (vm_compute; reflexivity).
  split; [intros d; reflexivity|]. split; [exact Hfile|].
  exact (@manager_call_commits iso_text (fun d => eq_refl) Fixture.store1
           Fixture.e9 Fixture.e9 Fixture.acme
           (@Update_status iso_text QUALIFIED "2024-03-04T11:00:00")
           "2024-03-04T11:00:01" Hfile).
Defined.

(** ** Searching and backing up a reached store *)

Section ReachedDocuments.
Context `{DT : DateTime}.

Lemma documents_ok_run (stamp : string) (ops : list op) :
  documents_ok (run (empty_storage stamp) ops).
Proof.
  unfold run.
  assert (forall st, documents_ok st ->
                     documents_ok (fold_left apply_op ops st)) as Hrun.
  { induction ops as [|o ops IH]; intros st Hok; simpl; [done|].
    apply IH. intros id c. destruct o as [p t|id0 t]; simpl.
    - destruct (decide (profile_id p = id)) as [<-|Hne].
      + rewrite lookup_insert_eq. intros [= <-]. by eauto.
      + rewrite lookup_insert_ne by done. apply Hok.
    - destruct (files st !! id0) eqn:Hfile; [|apply Hok].
      destruct (decide (id0 = id)) as [<-|Hne].
      + by rewrite lookup_delete_eq.
      + rewrite lookup_delete_ne by done. apply Hok. }
  apply Hrun. intros id c. simpl. by rewrite lookup_empty.
Qed.

Context {iso : IsoRoundTrip DT}.

Lemma to_dict_inj (e : env) (p q : ProspectProfile) :
  to_dict p = to_dict q -> p = q.
Proof.
  intros Heq. pose proof (from_dict_to_dict e p) as Hp.
  rewrite Heq, from_dict_to_dict in Hp. by injection Hp.
Qed.

(** On a store whose files are all documents of profiles, a load finds
    nothing or the profile of the file. *)
Lemma load_documents_ok (st : ProfileStorage) (e : env) (id : string) :
  documents_ok st ->
  (files st !! id = None /\ load_profile st e id = Ok (None, [])) \/
  (exists p, files st !! id = Some (Doc (to_dict p)) /\ profile_id p = id /\
             load_profile st e id = Ok (Some p, [])).
Proof.
  intros Hok. destruct (files st !! id) as [c|] eqn:Hfile.
  - right. destruct (Hok id c Hfile) as (p & -> & Hid).
    exists p. split; [done|]. split; [done|]. by apply load_stored.
  - left. split; [done|]. unfold load_profile, read_profile.
    by rewrite Hfile.
Qed.

Lemma load_all_documents_ok (st : ProfileStorage) (e : string -> env)
    (ids : list string) :
  documents_ok st ->
  exists ps,
    ProfileManagerReads.load_all st e ids = Ok ps /\
    forall p, p ∈ ps <->
              profile_id p ∈ ids /\
              files st !! profile_id p = Some (Doc (to_dict p)).
Proof.
  intros Hok. induction ids as [|id ids (ps & Hps & Hiff)]; simpl.
  - exists []. split; [done|]. intros p. split.
    + by intros ?%elem_of_nil.
    + by intros [?%elem_of_nil _].
  - rewrite Hps.
    destruct (load_documents_ok st (e id) id Hok)
      as [[Hnone ->]|(p0 & Hfile & Hid & ->)]; simpl.
    + exists ps. split; [done|]. intros p. rewrite Hiff, elem_of_cons.
      split; [tauto|]. intros [[Heq|Hin] Hfile]; [|done].
      rewrite Heq in Hfile. congruence.
    + exists (p0 :: ps). split; [done|]. intros p.
      rewrite !elem_of_cons, Hiff. split.
      * intros [->|[Hin Hfile']]; [|tauto].
        rewrite Hid. split; [by left|done].
      * intros [[Heq|Hin] Hfile']; [|tauto]. left.
        rewrite Heq, Hfile in Hfile'.
        apply (to_dict_inj (e id)). congruence.
Qed.

(** X22. On a store reached from a fresh one, the search of the manager
    answers the stored profiles whose id the search of the store finds: a
    profile is in the answer exactly when its id is found and its document
    is on file; an id that is found but has no file (left in a bucket by an
    earlier change) is passed over. *)
Theorem manager_search_loads_what_is_found (stamp : string) (ops : list op)
    (e : string -> env) (f : filters) :
  let st := run (empty_storage stamp) ops in
  exists ps,
    ProfileManagerReads.search_profiles st e f = Ok ps /\
    forall p, p ∈ ps <->
              profile_id p ∈ search_profiles st f /\
              files st !! profile_id p = Some (Doc (to_dict p)).
Proof.
  intros st. unfold ProfileManagerReads.search_profiles.
  destruct (load_all_documents_ok st e (elements (search_profiles st f))
              (documents_ok_run stamp ops)) as (ps & Hps & Hiff).
  exists ps. split; [done|]. intros p. rewrite Hiff.
  by rewrite elem_of_elements.
Qed.

Lemma backup_documents_of_ok (st : ProfileStorage) (e : string -> env)
    (ids : list string) :
  documents_ok st ->
  forall (acc : dict json) (printed : list backup_line),
  exists docs,
    backup_documents_of st e ids (acc, printed) = Ok (docs, printed) /\
    forall id,
      get id docs
      = match (if bool_decide (id ∈ ids) then files st !! id else None) with
        | Some (Doc j) => Some j
        | _ => get id acc
        end.
Proof.
  intros Hok. induction ids as [|i ids IH]; intros acc printed.
  - exists acc. split; [done|]. intros id.
    by rewrite bool_decide_eq_false_2 by apply not_elem_of_nil.
  - assert (forall id, id <> i ->
              bool_decide (id ∈ i :: ids) = bool_decide (id ∈ ids)) as Hother.
    { intros id Hne. apply bool_decide_ext. rewrite elem_of_cons. tauto. }
    assert (bool_decide (i ∈ i :: ids) = true) as Hhere
      by (apply bool_decide_eq_true_2; by left).
    cbn [backup_documents_of].
    destruct (load_documents_ok st (e i) i Hok)
      as [[Hnone ->]|(p0 & Hfile & Hid & ->)];
      cbn [mbind result_bind fst snd map]; rewrite app_nil_r.
    + destruct (IH acc printed) as (docs & Hdocs & Hget).
      exists docs. split; [done|]. intros id. rewrite Hget.
      destruct (decide (id = i)) as [->|Hne].
      * rewrite Hhere, Hnone. by destruct (bool_decide (i ∈ ids)).
      * by rewrite Hother.
    + destruct (IH (set i (to_dict p0) acc) printed) as (docs & Hdocs & Hget).
      exists docs. split; [done|]. intros id. rewrite Hget.
      destruct (decide (id = i)) as [->|Hne].
      * rewrite Hhere, Hfile, get_set_eq.
        by destruct (bool_decide (i ∈ ids)).
      * rewrite Hother by done. by rewrite get_set_ne.
Qed.

(** X23. A backup of a store reached from a fresh one answers [True],
    leaves the files and the index as they are and only stamps
    [last_backup]; the archive holds the metadata as it was before that
    stamp, the index, and under each id exactly the document that is on
    file for it; nothing but the path of the archive is printed. *)
Theorem backup_holds_every_document (stamp : string) (ops : list op)
    (e : string -> env) (backup_file : string) (t : datetime) :
  let st := run (empty_storage stamp) ops in
  exists docs,
    backup_profiles st e backup_file t
    = Ok (true,
          {| files := files st; index := index st;
             metadata := stamp_backup (isoformat t) (metadata st) |},
          {| backup_metadata := metadata st; backup_index := index st;
             backup_documents := docs |},
          [Backup_created backup_file]) /\
    forall id,
      get id docs
      = match files st !! id with
        | Some (Doc j) => Some j
        | _ => None
        end.
Proof.
  intros st. unfold backup_profiles.
  destruct (backup_documents_of_ok st e (keys (profiles (index st)))
              (documents_ok_run stamp ops) [] []) as (docs & Hdocs & Hget).
  exists docs. split.
  { match goal with
    | |- context [backup_documents_of ?a ?b ?c ?d] =>
        assert (backup_documents_of a b c d = Ok (docs, [])) as ->
          by exact Hdocs
    end.
    reflexivity. }
  intros id. rewrite Hget. simpl.
  pose proof (consistent_run ops _ (consistent_empty stamp)) as Hcons.
  fold st in Hcons. unfold consistent, indexed_ids, stored_ids in Hcons.
  case_bool_decide as Hin; [done|].
  assert (files st !! id = None) as ->; [|done].
  apply not_elem_of_dom. rewrite <- Hcons. unfold set_of.
  by rewrite elem_of_list_to_set.
Qed.

End ReachedDocuments.

Lemma manager_search_loads_what_is_found_witness :
  IsoRoundTrip iso_text /\
  let st := run (empty_storage "2024-03-01T08:00:00") MoreFixture.two_saves in
  exists ps,
    ProfileManagerReads.search_profiles st MoreFixture.readings
      (only_status "discovered") = Ok ps /\
    forall p, p ∈ ps <->
              profile_id p ∈ search_profiles st (only_status "discovered") /\
              files st !! profile_id p = Some (Doc (to_dict p)).
Proof.
  split; [intros d; reflexivity|].
  exact (@manager_search_loads_what_is_found iso_text (fun d => eq_refl)
           "2024-03-01T08:00:00" MoreFixture.two_saves MoreFixture.readings
           (only_status "discovered")).
Defined.

Lemma backup_holds_every_document_witness :
  IsoRoundTrip iso_text /\
  let st := run (empty_storage "2024-03-01T08:00:00") MoreFixture.two_saves in
  exists docs,
    backup_profiles st MoreFixture.readings "backups/profiles_backup.json"
      "2024-03-10T08:00:00"
    = Ok (true,
          {| files := files st; index := index st;
             metadata :=
               stamp_backup (isoformat (DateTime := iso_text)
                               "2024-03-10T08:00:00") (metadata st) |},
          {| backup_metadata := metadata st; backup_index := index st;
             backup_documents := docs |},
          [Backup_created "backups/profiles_backup.json"]) /\
    forall id,
      get id docs
      = match files st !! id with
        | Some (Doc j) => Some j
        | _ => None
        end.
Proof.
  split; [intros d; reflexivity|].
  exact (@backup_holds_every_document iso_text (fun d => eq_refl)
           "2024-03-01T08:00:00" MoreFixture.two_saves MoreFixture.readings
           "backups/profiles_backup.json" "2024-03-10T08:00:00").
Defined.

(** ** Statistics *)

Section Statistics.
Context `{DT : DateTime}.

Lemma bucket_sizes_get (m : dict (list string)) (key : string) :
  NoDup (keys m) ->
  get key (bucket_sizes m)
  = (fun bucket => Z.of_nat (length bucket)) <$> get key m.
Proof.
  unfold bucket_sizes, items.
  assert (forall acc : dict Z,
            NoDup (keys m) ->
            get key
              (fold_left
                 (fun counts kv => set kv.1 (Z.of_nat (length kv.2)) counts)
                 m acc)
            = match get key m with
              | Some bucket => Some (Z.of_nat (length bucket))
              | None => get key acc
              end) as Hgen.
  { induction m as [|[k0 b0] m IH]; intros acc Hnd; simpl; [done|].
    apply NoDup_cons in Hnd as [Hnotin Hnd]. rewrite IH by done.
    destruct (decide (key = k0)) as [->|Hne].
    - apply (proj2 (get_None_keys k0 m)) in Hnotin. rewrite Hnotin.
      by rewrite get_set_eq.
    - destruct (get key m); [done|]. by rewrite get_set_ne. }
  intros Hnd. rewrite Hgen by done. by destruct (get key m).
Qed.

(** X24. On a store reached from a fresh one, the three breakdowns of
    [get_stats] give for each key the length of its bucket, which is at
    least 1, and no entry for a key without a bucket; [total_tags] is the
    number of tag buckets. *)
Theorem get_stats_counts_buckets (stamp dir : string) (ops : list op)
    (key : string) :
  let st := run (empty_storage stamp) ops in
  let stats := get_stats dir st in
  let size_of (m : dict (list string)) :=
    (fun bucket => Z.of_nat (length bucket)) <$> get key m in
  get key (status_breakdown stats) = size_of (by_status (index st)) /\
  get key (relevance_breakdown stats) = size_of (by_relevance (index st)) /\
  get key (company_breakdown stats) = size_of (by_company (index st)) /\
  (forall n, get key (status_breakdown stats) = Some n -> 1 <= n) /\
  (forall n, get key (relevance_breakdown stats) = Some n -> 1 <= n) /\
  (forall n, get key (company_breakdown stats) = Some n -> 1 <= n) /\
  total_tags stats = Z.of_nat (length (keys (by_tags (index st)))).
Proof.
  intros st stats size_of.
  destruct (index_ok_run stamp ops)
    as (_ & [Hkc Hc] & _ & [Hks Hs] & [Hkr Hr] & _).
  fold st in Hkc, Hc, Hks, Hs, Hkr, Hr.
  assert (forall m, NoDup (keys m) -> Forall (fun kv => bucket_ok kv.2) m ->
            get key (bucket_sizes m) = size_of m /\
            forall n, get key (bucket_sizes m) = Some n -> 1 <= n) as Hm.
  { intros m Hk Hall. rewrite bucket_sizes_get by done.
    split; [done|]. intros n.
    destruct (get key m) as [b|] eqn:Hb; simpl; [|done].
    intros [= <-]. destruct (Forall_get _ _ _ _ Hall Hb) as [Hne _].
    simpl in Hne. destruct b; [done|]. simpl. lia. }
  destruct (Hm _ Hks Hs) as [Hs1 Hs2].
  destruct (Hm _ Hkr Hr) as [Hr1 Hr2].
  destruct (Hm _ Hkc Hc) as [Hc1 Hc2].
  repeat split; try done.
  unfold stats. simpl. unfold keys. by rewrite length_fmap.
Qed.

End Statistics.

(* ===================================================================== *)
(** * Further properties: buckets over time, order of ties, first tags *)
(* ===================================================================== *)

Section BucketsOverTime.
Context `{DT : DateTime}.

(** X25. [save_profile] never takes an id out of a bucket: whatever is
    listed under a key of one of the five secondary maps before the save
    is listed under it after. *)
Theorem save_profile_keeps_buckets (st : ProfileStorage)
    (p : ProspectProfile) (t : datetime) (key id : string) :
  let ix := index st in
  let ix' := index (save_profile st p t).2 in
  (listed (by_company ix) key id -> listed (by_company ix') key id) /\
  (listed (by_goal ix) key id -> listed (by_goal ix') key id) /\
  (listed (by_status ix) key id -> listed (by_status ix') key id) /\
  (listed (by_relevance ix) key id -> listed (by_relevance ix') key id) /\
  (listed (by_tags ix) key id -> listed (by_tags ix') key id).
Proof.
  simpl. repeat split; intros (b & Hb & Hin);
    try (by eapply bucket_add_keeps); by eapply add_tags_keeps.
Qed.

Lemma bucket_discard_other_key (k k' id : string) (m : dict (list string)) :
  k <> k' -> get k' (bucket_discard k id m) = get k' m.
Proof.
  intros Hne. unfold bucket_discard.
  destruct (get k m) as [b|]; [|done].
  destruct (if contains id b then remove_first id b else b).
  - by apply get_del_ne.
  - by apply get_set_ne.
Qed.

Lemma ProspectStatus_value_inj (s1 s2 : ProspectStatus) :
  ProspectStatus_value s1 = ProspectStatus_value s2 -> s1 = s2.
Proof. by destruct s1, s2. Qed.

Context {iso : IsoRoundTrip DT}.

(** X26. [delete_profile] takes the id out of the status bucket that the
    summary names, and out of no other: when a stored profile found under
    its status is moved to another status with [update_status] and then
    deleted, its file and its summary are gone and the load answers [None],
    but the search by the old status still answers its id. *)
Theorem deleted_id_stays_in_old_status_bucket (st : ProfileStorage)
    (e e' : env) (p : ProspectProfile) (new_status : ProspectStatus)
    (t_upd t_save t_del : datetime) :
  files st !! profile_id p = Some (Doc (to_dict p)) ->
  profile_id p
    ∈ search_profiles st (only_status (ProspectStatus_value (status p))) ->
  new_status <> status p ->
  exists st1,
    ProfileManager.update_status st e (profile_id p) new_status t_upd t_save
    = Ok (true, st1) /\
    let st2 := (delete_profile st1 (profile_id p) t_del).2 in
    load_profile st2 e' (profile_id p) = Ok (None, []) /\
    get (profile_id p) (profiles (index st2)) = None /\
    profile_id p
      ∈ search_profiles st2 (only_status (ProspectStatus_value (status p))).
Proof.
  intros Hfile Hold Hnew.
  destruct (status_bucket_survives_update st e p new_status t_upd t_save
              Hfile Hold) as (st1 & Hrun & Hold1 & _).
  exists st1. split; [exact Hrun|].
  assert (st1 = (save_profile st (update_status p new_status t_upd)
                   t_save).2) as Hst1.
  { unfold ProfileManager.update_status in Hrun.
    rewrite (load_change_save_stored st e p _ _ _ Hfile) in Hrun.
    by inversion Hrun. }
  assert (get (profile_id p) (profiles (index st1))
          = Some {| s_name := name p;
                    s_prospect_type := ProspectType_value (prospect_type p);
                    s_status := ProspectStatus_value new_status;
                    s_relevance_score :=
                      RelevanceScore_value
                        (relevance_score (goal_alignment p));
                    s_company_goal := company_goal (discovery_metadata p);
                    s_discovering_company :=
                      discovering_company (discovery_metadata p);
                    s_created_at := isoformat (created_at p);
                    s_updated_at := isoformat t_upd;
                    s_tags := tags p |}) as Hsum.
  { rewrite Hst1. simpl. apply get_set_eq. }
  assert (files st1 !! profile_id p
          = Some (Doc (to_dict (update_status p new_status t_upd)))) as Hf1.
  { rewrite Hst1. simpl. apply lookup_insert_eq. }
  clear Hst1 Hrun.
  intros st2. split; [|split].
  - unfold load_profile, read_profile, st2. simpl.
    rewrite Hf1. by rewrite lookup_delete_eq.
  - unfold st2. simpl. unfold _remove_from_index. rewrite Hsum. simpl.
    apply get_del_eq.
  - rewrite search_only_status in Hold1. rewrite search_only_status.
    unfold st2. simpl. unfold _remove_from_index. rewrite Hsum. simpl.
    rewrite bucket_discard_other_key; [done|].
    intros Heq%ProspectStatus_value_inj. done.
Qed.

(** X27. [update_profile] of the manager stores the profile with its
    version one higher and [updated_at] set to the clock reading, and
    nothing else changed: that is the profile a load then answers. *)
Theorem update_profile_stores_bumped (st : ProfileStorage) (e : env)
    (p : ProspectProfile) (t_upd t_save : datetime) :
  exists q,
    (ProfileManager.update_profile st p t_upd t_save).1 = true /\
    load_profile (ProfileManager.update_profile st p t_upd t_save).2 e
      (profile_id p) = Ok (Some q, []) /\
    version q = version p + 1 /\ updated_at q = t_upd /\
    same_identity p q /\ status q = status p /\ tags q = tags p /\
    notes q = notes p /\ interactions q = interactions p.
Proof.
  eexists. split; [reflexivity|]. split.
  - apply load_stored. unfold ProfileManager.update_profile. simpl.
    apply lookup_insert_eq.
  - by repeat split.
Qed.

End BucketsOverTime.

Lemma deleted_id_stays_in_old_status_bucket_witness :
  IsoRoundTrip iso_text /\
  files Fixture.store1 !! profile_id Fixture.acme
  = Some (Doc (to_dict Fixture.acme)) /\
  profile_id Fixture.acme
    ∈ search_profiles Fixture.store1
        (only_status (ProspectStatus_value (status Fixture.acme))) /\
  CONTACTED <> status Fixture.acme /\
  exists st1,
    ProfileManager.update_status Fixture.store1 Fixture.e9
      (profile_id Fixture.acme) CONTACTED
      "2024-03-04T10:00:00" "2024-03-04T10:00:01" = Ok (true, st1) /\
    let st2 :=
      (delete_profile (DT := iso_text) st1 (profile_id Fixture.acme)
         "2024-03-05T10:00:00").2 in
    load_profile st2 Fixture.e9 (profile_id Fixture.acme) = Ok (None, []) /\
    get (profile_id Fixture.acme) (profiles (index st2)) = None /\
    profile_id Fixture.acme
      ∈ search_profiles st2
          (only_status (ProspectStatus_value (status Fixture.acme))).
Proof.
  assert (files Fixture.store1 !! profile_id Fixture.acme
          = Some (Doc (to_dict Fixture.acme))) as Hfile
    by (vm_compute; reflexivity).
  assert (profile_id Fixture.acme
            ∈ search_profiles Fixture.store1
                (only_status (ProspectStatus_value (status Fixture.acme))))
    as Hold.
  { apply elem_of_elements.
    replace (elements _) with ["p1"] by (vm_compute; reflexivity).
    vm_compute. left. }
  assert (CONTACTED <> status Fixture.acme) as Hnew by (vm_compute; discriminate).
  split; [intros d; reflexivity|]. split; [exact Hfile|].
  split; [exact Hold|]. split; [exact Hnew|].
  exact (@deleted_id_stays_in_old_status_bucket iso_text (fun d => eq_refl)
           Fixture.store1 Fixture.e9 Fixture.e9 Fixture.acme CONTACTED
           "2024-03-04T10:00:00" "2024-03-04T10:00:01" "2024-03-05T10:00:00"
           Hfile Hold Hnew).
Defined.

Lemma update_profile_stores_bumped_witness :
  IsoRoundTrip iso_text /\
  exists q,
    (ProfileManager.update_profile Fixture.store1 Fixture.acme
       "2024-03-04T10:00:00" "2024-03-04T10:00:01").1 = true /\
    load_profile
      (ProfileManager.update_profile Fixture.store1 Fixture.acme
         "2024-03-04T10:00:00" "2024-03-04T10:00:01").2 Fixture.e9
      (profile_id Fixture.acme) = Ok (Some q, []) /\
    version q = version Fixture.acme + 1 /\
    updated_at q = "2024-03-04T10:00:00" /\
    same_identity Fixture.acme q /\ status q = status Fixture.acme /\
    tags q = tags Fixture.acme /\ notes q = notes Fixture.acme /\
    interactions q = interactions Fixture.acme.
Proof.
  split; [intros d; reflexivity|].
  exact (@update_profile_stores_bumped iso_text (fun d => eq_refl)
           Fixture.store1 Fixture.e9 Fixture.acme
           "2024-03-04T10:00:00" "2024-03-04T10:00:01").
Defined.

(** ** Entries with the same time stamp keep their order *)

Section Stability.
Context {A : Type} (key : A -> string).

Lemma ltb_irrefl (s : string) : String.ltb s s = false.
Proof.
  unfold String.ltb. pose proof (String.compare_antisym s s) as H.
  by destruct (String.compare s s).
Qed.

Lemma filter_insert_desc (k : string) (x : A) (l : list A) :
  filter (fun y => key y = k) (insert_desc key x l)
  = filter (fun y => key y = k) (x :: l).
Proof.
  induction l as [|y l IH]; simpl; [done|].
  destruct (String.ltb (key x) (key y)) eqn:Hlt; [|done].
  destruct (decide (key y = k)) as [Hy|Hy].
  - rewrite (filter_cons_True _ y) by done. rewrite IH.
    destruct (decide (key x = k)) as [Hx|Hx].
    + rewrite Hx, Hy, ltb_irrefl in Hlt. done.
    + rewrite !(filter_cons_False _ x) by done.
      by rewrite (filter_cons_True _ y).
  - rewrite (filter_cons_False _ y) by done. rewrite IH.
    destruct (decide (key x = k)) as [Hx|Hx].
    + rewrite !(filter_cons_True _ x) by done.
      by rewrite (filter_cons_False _ y).
    + rewrite !(filter_cons_False _ x) by done.
      by rewrite (filter_cons_False _ y).
Qed.

Lemma sort_desc_stable (k : string) (l : list A) :
  filter (fun y => key y = k) (sort_desc key l)
  = filter (fun y => key y = k) l.
Proof.
  unfold sort_desc. induction l as [|x l IH]; simpl; [done|].
  rewrite filter_insert_desc.
  destruct (decide (key x = k)) as [Hx|Hx].
  - rewrite !(filter_cons_True _ x) by done. by rewrite IH.
  - rewrite !(filter_cons_False _ x) by done. by rewrite IH.
Qed.

End Stability.

(** X28. The listing is stable: on a page that holds every entry, the
    entries that share one [updated_at] text come in the order in which
    the summary map holds them. *)
Theorem list_profiles_keeps_order_of_ties (st : ProfileStorage) (limit : Z)
    (stamp : string) :
  Z.of_nat (length (profiles (index st))) <= limit ->
  filter (fun x => updated_key x = stamp) (list_profiles st limit 0)
  = filter (fun x => updated_key x = stamp) (items (profiles (index st))).
Proof.
  intros Hlim. rewrite list_profiles_take_drop by lia.
  pose proof (sort_desc_perm updated_key (items (profiles (index st))))
    as Hperm.
  assert (length (sort_desc updated_key (items (profiles (index st))))
          = length (profiles (index st))) as Hlen
    by (by rewrite Hperm).
  simpl. rewrite drop_0, take_ge by lia. apply sort_desc_stable.
Qed.

Lemma list_profiles_keeps_order_of_ties_witness :
  Z.of_nat (length (profiles (index Fixture.store2))) <= 5 /\
  filter (fun x => updated_key x = "2024-03-01T09:00:00")
    (list_profiles Fixture.store2 5 0)
  = filter (fun x => updated_key x = "2024-03-01T09:00:00")
      (items (profiles (index Fixture.store2))).
Proof.
  assert (Z.of_nat (length (profiles (index Fixture.store2))) <= 5) as H5
    by (vm_compute; discriminate).
  split; [exact H5|].
  exact (list_profiles_keeps_order_of_ties Fixture.store2 5
           "2024-03-01T09:00:00" H5).
Defined.

(** ** The tags a new profile starts with *)

Section InitialTags.




(** What raises: the value under "type" is not a string. *)
Lemma initial_tags_type_not_string (prospect_data : dict json)
    (goal year_month : string) (v : json) :
  get "type" prospect_data = Some v ->
  (forall s, v <> JStr s) ->
  _generate_initial_tags prospect_data goal year_month
  = Raise AttributeError.
Proof.
  intros Hget Hv. unfold _generate_initial_tags. rewrite Hget.
  destruct v; try done. by destruct (Hv s).
Qed.

End InitialTags.

